(** * calendar_syncer: Clockify time entries to a CalDAV calendar

    A shallow embedding of [calendar_syncer.py].  The three functions of
    the script ([fetch_time_entries], [get_calendar],
    [add_entries_to_calendar]) and [main] are written in a state-and-fault
    monad over an explicit world: the log file, the events the remote
    calendar holds, the save operations attempted and the number of clock
    reads.  The network, the CalDAV server, the clock and the process
    environment are read-only oracles of the run.

    Scope of the embedding: strings are ASCII texts ([str.lower] acts on
    the letters A-Z), time is counted in whole seconds, and the
    serialisation of an event ([to_ical]) is part of the save operation. *)

From Stdlib Require Import ZArith List String Ascii Bool Lia Arith.
Import ListNotations.
Local Open Scope string_scope.
Local Open Scope Z_scope.

(** ** Python values *)

Set Warnings "-register-all".

(** What [response.json()] returns.  A dict keeps insertion order, which
    is its iteration order, so it is an association list. *)
Inductive json : Type :=
| JNull
| JBool (b : bool)
| JInt (n : Z)
| JFloat (mantissa exponent : Z)
| JStr (s : string)
| JList (items : list json)
| JDict (fields : list (string * json)).

(** The exceptions the script can meet; none of them is caught. *)
Inductive exn : Type :=
| KeyError (key : string)
| TypeError
| ValueError
| AttributeError
| OverflowError
| UnknownTimeZoneError (name : string)
| JSONDecodeError
| RequestException
| DAVError.

Inductive result (A : Type) : Type :=
| Ok (a : A)
| Raise (e : exn).
Arguments Ok {A} a.
Arguments Raise {A} e.

Definition rbind {A B} (r : result A) (k : A -> result B) : result B :=
  match r with
  | Ok a => k a
  | Raise e => Raise e
  end.

Fixpoint assoc (k : string) (d : list (string * json)) : option json :=
  match d with
  | [] => None
  | (k', v) :: rest => if String.eqb k k' then Some v else assoc k rest
  end.

(** [obj[key]] with a string key: only a dict accepts it. *)
Definition subscript (obj : json) (key : string) : result json :=
  match obj with
  | JDict d =>
      match assoc key d with
      | Some v => Ok v
      | None => Raise (KeyError key)
      end
  | _ => Raise TypeError
  end.

(** [d.get(key, default)] on a dict. *)
Definition dict_get (d : list (string * json)) (key : string) (default : json) : json :=
  match assoc key d with
  | Some v => v
  | None => default
  end.

Fixpoint chars (s : string) : list json :=
  match s with
  | EmptyString => []
  | String c rest => JStr (String c EmptyString) :: chars rest
  end.

(** What [for entry in obj] walks through: the items of a list, the keys
    of a dict, the characters of a string; anything else is not iterable. *)
Definition py_iter (obj : json) : result (list json) :=
  match obj with
  | JList l => Ok l
  | JDict d => Ok (map (fun kv => JStr (fst kv)) d)
  | JStr s => Ok (chars s)
  | _ => Raise TypeError
  end.

(** ** Strings *)

Definition is_upper (c : ascii) : bool :=
  let n := nat_of_ascii c in (65 <=? n)%nat && (n <=? 90)%nat.

Definition lower_char (c : ascii) : ascii :=
  if is_upper c then ascii_of_nat (nat_of_ascii c + 32) else c.

(** [s.lower()] on ASCII texts: the letters A-Z are lowered, every other
    character is kept. *)
Fixpoint lower (s : string) : string :=
  match s with
  | EmptyString => EmptyString
  | String c rest => String (lower_char c) (lower rest)
  end.

(** [s[:n]] *)
Fixpoint take (n : nat) (s : string) : string :=
  match n, s with
  | O, _ => EmptyString
  | S _, EmptyString => EmptyString
  | S n', String c rest => String c (take n' rest)
  end.

(** ** Calendars *)

(** The handle of a remote calendar: its display name and its address. *)
Record Calendar : Type := mkCalendar {
  name : string;
  url : string
}.

(** The scan of [get_calendar] (lines 43-47) over the calendars of the
    principal. *)
Fixpoint find_calendar (calendars : list Calendar) (calendar_name : string)
  : option Calendar :=
  match calendars with
  | [] => None
  | calendar :: rest =>
      if String.eqb (lower (name calendar)) (lower calendar_name)
      then Some calendar
      else find_calendar rest calendar_name
  end.

(** The same scan with [str.lower] as a parameter.  Python lowers every
    cased code point; [lower] is that function on ASCII texts, and
    [find_calendar] is this scan at [lower]. *)
Fixpoint find_calendar_with (str_lower : string -> string)
    (calendars : list Calendar) (calendar_name : string) : option Calendar :=
  match calendars with
  | [] => None
  | calendar :: rest =>
      if String.eqb (str_lower (name calendar)) (str_lower calendar_name)
      then Some calendar
      else find_calendar_with str_lower rest calendar_name
  end.

(** ** Dates and times

    [datetime] objects at the resolution of one second.  The calendar
    arithmetic is the proleptic Gregorian one of Python's [datetime]
    module: day 1 is 0001-01-01, a Monday. *)

Record datetime : Type := mkDatetime {
  year : Z;
  month : Z;
  day : Z;
  hour : Z;
  minute : Z;
  second : Z
}.

Definition MINYEAR : Z := 1.
Definition MAXYEAR : Z := 9999.

Definition is_leap (y : Z) : bool :=
  (y mod 4 =? 0) && (negb (y mod 100 =? 0) || (y mod 400 =? 0)).

Definition days_before_year (y : Z) : Z :=
  let p := y - 1 in p * 365 + p / 4 - p / 100 + p / 400.

Definition DAYS_IN_MONTH (m : Z) : Z :=
  match m with
  | 1 => 31 | 2 => 28 | 3 => 31 | 4 => 30 | 5 => 31 | 6 => 30
  | 7 => 31 | 8 => 31 | 9 => 30 | 10 => 31 | 11 => 30 | 12 => 31
  | _ => 0
  end.

Definition DAYS_BEFORE_MONTH (m : Z) : Z :=
  match m with
  | 1 => 0 | 2 => 31 | 3 => 59 | 4 => 90 | 5 => 120 | 6 => 151
  | 7 => 181 | 8 => 212 | 9 => 243 | 10 => 273 | 11 => 304 | 12 => 334
  | _ => 0
  end.

Definition days_in_month (y m : Z) : Z :=
  if (m =? 2) && is_leap y then 29 else DAYS_IN_MONTH m.

Definition days_before_month (y m : Z) : Z :=
  DAYS_BEFORE_MONTH m + (if (2 <? m) && is_leap y then 1 else 0).

Definition ymd2ord (y m d : Z) : Z :=
  days_before_year y + days_before_month y m + d.

Definition DI400Y : Z := 146097.
Definition DI100Y : Z := 36524.
Definition DI4Y : Z := 1461.

Definition ord2ymd (ordinal : Z) : Z * Z * Z :=
  let n := ordinal - 1 in
  let n400 := n / DI400Y in
  let n := n mod DI400Y in
  let n100 := n / DI100Y in
  let n := n mod DI100Y in
  let n4 := n / DI4Y in
  let n := n mod DI4Y in
  let n1 := n / 365 in
  let n := n mod 365 in
  let y := n400 * 400 + 1 + n100 * 100 + n4 * 4 + n1 in
  if (n1 =? 4) || (n100 =? 4) then (y - 1, 12, 31)
  else
    let leapyear := (n1 =? 3) && (negb (n4 =? 24) || (n100 =? 3)) in
    let m := Z.shiftr (n + 50) 5 in
    let preceding :=
      DAYS_BEFORE_MONTH m + (if (2 <? m) && leapyear then 1 else 0) in
    if n <? preceding then
      let m' := m - 1 in
      let preceding' :=
        preceding
        - (DAYS_IN_MONTH m' + (if (m' =? 2) && leapyear then 1 else 0)) in
      (y, m', n - preceding' + 1)
    else (y, m, n - preceding + 1).

(** The fields a [datetime] accepts. *)
Definition valid_datetime (dt : datetime) : bool :=
  (MINYEAR <=? year dt) && (year dt <=? MAXYEAR)
  && (1 <=? month dt) && (month dt <=? 12)
  && (1 <=? day dt) && (day dt <=? days_in_month (year dt) (month dt))
  && (0 <=? hour dt) && (hour dt <=? 23)
  && (0 <=? minute dt) && (minute dt <=? 59)
  && (0 <=? second dt) && (second dt <=? 59).

(** Seconds on the wall clock, counted from the start of day 0. *)
Definition seconds_of (dt : datetime) : Z :=
  ymd2ord (year dt) (month dt) (day dt) * 86400
  + hour dt * 3600 + minute dt * 60 + second dt.

Definition MAXORDINAL : Z := 3652059.

(** The wall clock showing a count of seconds; a date outside the years
    1..9999 is "date value out of range". *)
Definition of_seconds (s : Z) : result datetime :=
  let ordinal := s / 86400 in
  let r := s mod 86400 in
  if (1 <=? ordinal) && (ordinal <=? MAXORDINAL) then
    let '(y, m, d) := ord2ymd ordinal in
    Ok (mkDatetime y m d (r / 3600) (r mod 3600 / 60) (r mod 60))
  else Raise OverflowError.

(** A time zone gives the offset from UTC, in seconds, in force at an
    instant; the instant is the count of seconds the UTC wall clock shows. *)
Definition tzinfo : Type := Z -> Z.

Definition utc : tzinfo := fun _ => 0.

(** An aware [datetime]: the local wall clock and its offset from UTC. *)
Record aware : Type := mkAware {
  wall : datetime;
  utcoffset : Z
}.

(** [dt.replace(tzinfo=pytz.utc)]: the fields are kept and labelled UTC. *)
Definition replace_utc (dt : datetime) : aware := mkAware dt 0.

(** The UTC instant an aware [datetime] denotes. *)
Definition instant (a : aware) : Z := seconds_of (wall a) - utcoffset a.

(** [a.astimezone(tz)] *)
Definition astimezone (a : aware) (tz : tzinfo) : result aware :=
  let u := instant a in
  rbind (of_seconds (u + tz u)) (fun w => Ok (mkAware w (tz u))).

(** The last Sunday of a 31-day month, as a day number. *)
Definition last_sunday (y m : Z) : Z :=
  let o := ymd2ord y m 31 in o - o mod 7.

(** Modelled from the spec: the zone table of [pytz] is not in the
    repository.  Europe/Rome is UTC+1 ("UTC+1 in March, pre-DST") and
    UTC+2 under summer time, which by the European rule runs from 01:00 UTC
    on the last Sunday of March to 01:00 UTC on the last Sunday of
    October. *)
Definition europe_rome : tzinfo := fun u =>
  let '(y, _, _) := ord2ymd (u / 86400) in
  let dst_start := last_sunday y 3 * 86400 + 3600 in
  let dst_end := last_sunday y 10 * 86400 + 3600 in
  if (dst_start <=? u) && (u <? dst_end) then 7200 else 3600.


(** ** Parsing and printing timestamps *)

Definition digit_val (c : ascii) : option Z :=
  let n := nat_of_ascii c in
  if (48 <=? n)%nat && (n <=? 57)%nat then Some (Z.of_nat n - 48) else None.

(** The leading run of decimal digits of a text, most significant first,
    and what follows it. *)
Fixpoint read_digits (s : string) : list Z * string :=
  match s with
  | EmptyString => ([], EmptyString)
  | String c rest =>
      match digit_val c with
      | Some d => let '(ds, tl) := read_digits rest in (d :: ds, tl)
      | None => ([], s)
      end
  end.

Definition number (ds : list Z) : Z := fold_left (fun acc d => acc * 10 + d) ds 0.

(** A literal character of the format; the pattern is matched ignoring
    case. *)
Definition literal (c : ascii) (s : string) : option string :=
  match s with
  | String c' rest => if Ascii.eqb (lower_char c') (lower_char c) then Some rest else None
  | EmptyString => None
  end.

(** A numeric directive of one or two digits with value in [lo..hi]; a
    single digit must itself be at least [lo1]. *)
Definition directive (lo1 lo hi : Z) (s : string) : option (Z * string) :=
  let '(ds, rest) := read_digits s in
  let v := number ds in
  match ds with
  | [_] => if (lo1 <=? v) then Some (v, rest) else None
  | [_; _] => if (lo <=? v) && (v <=? hi) then Some (v, rest) else None
  | _ => None
  end.

(** [%Y]: exactly four digits. *)
Definition directive_Y (s : string) : option (Z * string) :=
  let '(ds, rest) := read_digits s in
  match ds with
  | [_; _; _; _] => Some (number ds, rest)
  | _ => None
  end.

(** [%d]: as [directive 1 1 31], or a space and one digit from 1 to 9. *)
Definition directive_d (s : string) : option (Z * string) :=
  match s with
  | String " " rest =>
      match read_digits rest with
      | ([v], rest') => if 1 <=? v then Some (v, rest') else None
      | _ => None
      end
  | _ => directive 1 1 31 s
  end.

Definition obind {A B} (o : option A) (k : A -> option B) : option B :=
  match o with
  | Some a => k a
  | None => None
  end.

(** The text against the pattern of ['%Y-%m-%dT%H:%M:%SZ']; all of it must
    be consumed. *)
Definition match_format (s : string) : option datetime :=
  obind (directive_Y s) (fun '(y, s) =>
  obind (literal "-" s) (fun s =>
  obind (directive 1 1 12 s) (fun '(m, s) =>
  obind (literal "-" s) (fun s =>
  obind (directive_d s) (fun '(d, s) =>
  obind (literal "T" s) (fun s =>
  obind (directive 0 0 23 s) (fun '(H, s) =>
  obind (literal ":" s) (fun s =>
  obind (directive 0 0 59 s) (fun '(M, s) =>
  obind (literal ":" s) (fun s =>
  obind (directive 0 0 61 s) (fun '(sec, s) =>
  obind (literal "Z" s) (fun s =>
  match s with
  | EmptyString => Some (mkDatetime y m d H M sec)
  | _ => None
  end)))))))))))).

(** [datetime.strptime(value, '%Y-%m-%dT%H:%M:%SZ')]: a value that is not
    a string is a [TypeError]; a text that does not match, or whose fields
    are no date and time, is a [ValueError]. *)
Definition strptime (value : json) : result datetime :=
  match value with
  | JStr s =>
      match match_format s with
      | Some dt => if valid_datetime dt then Ok dt else Raise ValueError
      | None => Raise ValueError
      end
  | _ => Raise TypeError
  end.

Definition digit_char (d : Z) : ascii := ascii_of_nat (48 + Z.to_nat (d mod 10)).

Definition pad2 (n : Z) : string :=
  String (digit_char (n / 10)) (String (digit_char n) EmptyString).

Definition pad4 (n : Z) : string := pad2 (n / 100) ++ pad2 (n mod 100).

(** [dt.strftime('%Y-%m-%dT%H:%M:%SZ')] *)
Definition strftime_iso (dt : datetime) : string :=
  pad4 (year dt) ++ "-" ++ pad2 (month dt) ++ "-" ++ pad2 (day dt) ++ "T"
  ++ pad2 (hour dt) ++ ":" ++ pad2 (minute dt) ++ ":" ++ pad2 (second dt) ++ "Z".

(** [dt.strftime('%d-%m-%Y')] *)
Definition strftime_dmy (dt : datetime) : string :=
  pad2 (day dt) ++ "-" ++ pad2 (month dt) ++ "-" ++ pad4 (year dt).

(** ** The world of a run *)

Inductive level : Type := INFO | ERROR.

(** The messages the script logs, each with the values it formats in. *)
Inductive message : Type :=
| Fetching (start_day end_day : string)
| AddedEntry (description : json) (date : string) (calendar_name : string)
| EntriesAdded (start_day end_day : string) (calendar_name : string)
| CalendarNotFound.

Record log_line : Type := mkLine {
  line_level : level;
  line_message : message
}.

(** The calendar event built for one entry. *)
Record Event : Type := mkEvent {
  summary : json;
  dtstart : aware;
  dtend : aware;
  dtstamp : aware;
  uid : json
}.

Record World : Type := mkWorld {
  log : list log_line;       (* calendar_syncer.log, oldest line first *)
  written : list Event;      (* events the remote calendar took, oldest first *)
  attempts : list Event;     (* every save_event call made, oldest first *)
  clock_reads : nat          (* calls of datetime.now() so far *)
}.

Record Response : Type := mkResponse {
  status_code : Z;
  body : option json         (* None: the body is not JSON *)
}.

(** What the run cannot control.  A fault of the network or of the CalDAV
    server is an answer of the oracle. *)
Record Env : Type := mkEnv {
  getenv : string -> option string;
  http_get : string -> option string -> result Response;
  principal_calendars : result (list Calendar);
  utc_now : nat -> Z;              (* the UTC instant at the k-th clock read *)
  system_tz : tzinfo;              (* the time zone of the host *)
  save_outcome : nat -> Calendar -> Event -> option exn;
                                   (* the k-th save: None when it succeeds *)
  timezone_db : string -> option tzinfo
}.

(** ** The monad: state that survives a fault *)

Definition M (A : Type) : Type := World -> result A * World.

Definition ret {A} (a : A) : M A := fun w => (Ok a, w).

Definition bind {A B} (c : M A) (k : A -> M B) : M B := fun w =>
  match c w with
  | (Ok a, w') => k a w'
  | (Raise e, w') => (Raise e, w')
  end.

Definition lift {A} (r : result A) : M A := fun w => (r, w).

Declare Scope py_scope.
Delimit Scope py_scope with py.
Notation "x <- c ;; k" := (bind c (fun x => k))
  (at level 61, c at next level, right associativity) : py_scope.
Notation "c ;;; k" := (bind c (fun _ => k))
  (at level 61, right associativity) : py_scope.
Local Open Scope py_scope.

(** [for x in xs: body(x)] *)
Fixpoint for_each {A} (xs : list A) (body : A -> M unit) : M unit :=
  match xs with
  | [] => ret tt
  | x :: rest => body x ;;; for_each rest body
  end.

Section Program.

Variable E : Env.

(** [logging.info(...)] and [logging.error(...)] *)
Definition logging (l : level) (m : message) : M unit := fun w =>
  (Ok tt, mkWorld (log w ++ [mkLine l m])%list (written w) (attempts w) (clock_reads w)).

(** The wall clock of the host at the [k]-th clock read: the instant,
    moved by the offset of the host's zone. *)
Definition host_now (k : nat) : result datetime :=
  of_seconds (utc_now E k + system_tz E (utc_now E k)).

(** [datetime.now()]: the wall clock of the host, without a zone. *)
Definition datetime_now : M datetime := fun w =>
  (host_now (clock_reads w),
   mkWorld (log w) (written w) (attempts w) (S (clock_reads w))).

(** [pytz.timezone(name)] *)
Definition pytz_timezone (tzname : string) : result tzinfo :=
  match timezone_db E tzname with
  | Some tz => Ok tz
  | None => Raise (UnknownTimeZoneError tzname)
  end.

(** [calendar.save_event(event.to_ical())] *)
Definition save_event (calendar : Calendar) (event : Event) : M unit := fun w =>
  match save_outcome E (List.length (attempts w)) calendar event with
  | None =>
      (Ok tt, mkWorld (log w) (written w ++ [event])%list
                      (attempts w ++ [event])%list (clock_reads w))
  | Some e =>
      (Raise e, mkWorld (log w) (written w) (attempts w ++ [event])%list
                        (clock_reads w))
  end.

(** [os.getenv(key)] inside an f-string. *)
Definition env_text (key : string) : string :=
  match getenv E key with
  | Some v => v
  | None => "None"
  end.

(** line 22 *)
Definition time_entries_url (start_date end_date : string) : string :=
  env_text "BASE_URL" ++ "/workspaces/" ++ env_text "WORKSPACE_ID"
  ++ "/user/" ++ env_text "USER_ID" ++ "/time-entries?start="
  ++ start_date ++ "&end=" ++ end_date ++ "&page-size=800".

(** lines 20-26 *)
Definition fetch_time_entries (start_date end_date : string) : M json :=
  let url := time_entries_url start_date end_date in
  response <- lift (http_get E url (getenv E "API_KEY")) ;;
  logging INFO (Fetching (take 10 start_date) (take 10 end_date)) ;;;
  lift (match body response with
        | Some v => Ok v
        | None => Raise JSONDecodeError
        end).

(** lines 29-47 *)
Definition get_calendar (calendar_name : string) : M (option Calendar) :=
  calendars <- lift (principal_calendars E) ;;
  ret (find_calendar calendars calendar_name).

(** [entry.get('description', 'Work Entry')] *)
Definition entry_get (entry : json) (key : string) (default : json) : result json :=
  match entry with
  | JDict d => Ok (dict_get d key default)
  | _ => Raise AttributeError
  end.

(** [t.replace(tzinfo=pytz.utc).astimezone(pytz.timezone(timezone))] *)
Definition to_local (t : datetime) (timezone : string) : result aware :=
  rbind (pytz_timezone timezone) (fun tz => astimezone (replace_utc t) tz).

(** lines 67-76: the body of the loop for one entry. *)
Definition add_entry (calendar : Calendar) (timezone : string) (entry : json)
  : M unit :=
  start <- lift (rbind (rbind (subscript entry "timeInterval")
                              (fun ti => subscript ti "start")) strptime) ;;
  end_ <- lift (rbind (rbind (subscript entry "timeInterval")
                             (fun ti => subscript ti "end")) strptime) ;;
  summary_ <- lift (entry_get entry "description" (JStr "Work Entry")) ;;
  dtstart_ <- lift (to_local start timezone) ;;
  dtend_ <- lift (to_local end_ timezone) ;;
  now <- datetime_now ;;
  dtstamp_ <- lift (to_local now timezone) ;;
  uid_ <- lift (subscript entry "id") ;;
  save_event calendar (mkEvent summary_ dtstart_ dtend_ dtstamp_ uid_) ;;;
  description <- lift (subscript entry "description") ;;
  logging INFO (AddedEntry description (strftime_dmy start) (name calendar)).

(** lines 50-76 *)
Definition add_entries_to_calendar (calendar : Calendar) (time_entries : json)
    (timezone : string) : M unit :=
  entries <- lift (py_iter time_entries) ;;
  for_each entries (add_entry calendar timezone).

(** lines 79-95; a calendar handle is truthy, so [if calendar:] tests for
    [None]. *)
Definition main : M unit :=
  let start_date := "2024-01-01T00:00:00Z" in
  now <- datetime_now ;;
  let end_date := strftime_iso now in
  let calendar_name := "work" in
  let timezone := "Europe/Rome" in
  time_entries <- fetch_time_entries start_date end_date ;;
  calendar <- get_calendar calendar_name ;;
  match calendar with
  | Some c =>
      add_entries_to_calendar c time_entries timezone ;;;
      logging INFO (EntriesAdded (take 10 start_date) (take 10 end_date)
                                 calendar_name)
  | None => logging ERROR CalendarNotFound
  end.

End Program.

(** * Vocabulary of the properties *)

(** ** Names that differ only in the case of letters *)

(** Two characters are the same letter when they are equal or one is the
    capital of the other (capitals are 32 below their small letters). *)
Definition same_letter (a b : ascii) : Prop :=
  a = b
  \/ (is_upper a = true /\ nat_of_ascii b = (nat_of_ascii a + 32)%nat)
  \/ (is_upper b = true /\ nat_of_ascii a = (nat_of_ascii b + 32)%nat).

(** Equality of two texts under case-insensitive comparison, letter by
    letter. *)
Inductive ci_equal : string -> string -> Prop :=
| ci_empty : ci_equal EmptyString EmptyString
| ci_letter a b s t :
    same_letter a b -> ci_equal s t -> ci_equal (String a s) (String b t).

(** ** The steps of one entry *)

Section EntrySteps.

Variable E : Env.
Variable timezone : string.

(** What lines 67-72 compute from an entry: the parsed start, the summary
    and the two converted times. *)
Definition read_entry (entry : json) : result (datetime * json * aware * aware) :=
  rbind (rbind (rbind (subscript entry "timeInterval")
                      (fun ti => subscript ti "start")) strptime) (fun start =>
  rbind (rbind (rbind (subscript entry "timeInterval")
                      (fun ti => subscript ti "end")) strptime) (fun end_ =>
  rbind (entry_get entry "description" (JStr "Work Entry")) (fun summary_ =>
  rbind (to_local E start timezone) (fun dtstart_ =>
  rbind (to_local E end_ timezone) (fun dtend_ =>
  Ok (start, summary_, dtstart_, dtend_)))))).

(** What lines 73-74 add when the clock is read for the [k]-th time. *)
Definition stamp_entry (entry : json) (k : nat)
    (r : datetime * json * aware * aware) : result Event :=
  let '(_, summary_, dtstart_, dtend_) := r in
  rbind (host_now E k) (fun now =>
  rbind (to_local E now timezone) (fun dtstamp_ =>
  rbind (subscript entry "id") (fun uid_ =>
  Ok (mkEvent summary_ dtstart_ dtend_ dtstamp_ uid_)))).

(** The event of an entry, when lines 67-74 all succeed. *)
Definition build_event (entry : json) (k : nat) : result Event :=
  rbind (read_entry entry) (stamp_entry entry k).

End EntrySteps.

(** ** Worlds *)

Definition tick (w : World) : World :=
  mkWorld (log w) (written w) (attempts w) (S (clock_reads w)).

Definition attempted (ev : Event) (w : World) : World :=
  mkWorld (log w) (written w) (attempts w ++ [ev])%list (clock_reads w).

Definition persisted (ev : Event) (w : World) : World :=
  mkWorld (log w) (written w ++ [ev])%list (attempts w ++ [ev])%list
          (clock_reads w).

Definition logged (l : log_line) (w : World) : World :=
  mkWorld (log w ++ [l])%list (written w) (attempts w) (clock_reads w).

(** A world reached from another: the log, the remote calendar and the
    record of attempts are only ever extended. *)
Definition grows (w w' : World) : Prop :=
  (exists ls, log w' = (log w ++ ls)%list)
  /\ (exists evs, written w' = (written w ++ evs)%list)
  /\ (exists evs, attempts w' = (attempts w ++ evs)%list).

Definition is_ok {A} (r : result A) : bool :=
  match r with
  | Ok _ => true
  | Raise _ => false
  end.

(** The fields C1 asks of an entry: [id], [timeInterval.start] and
    [timeInterval.end]. *)
Definition has_claimed_fields (entry : json) : bool :=
  is_ok (subscript entry "id")
  && is_ok (rbind (subscript entry "timeInterval") (fun ti => subscript ti "start"))
  && is_ok (rbind (subscript entry "timeInterval") (fun ti => subscript ti "end")).

Definition is_error (l : log_line) : bool :=
  match line_level l with
  | ERROR => true
  | INFO => false
  end.

(** The lines that speak of something "added": the one per entry and the
    closing summary. *)
Definition says_added (l : log_line) : bool :=
  match line_message l with
  | AddedEntry _ _ _ | EntriesAdded _ _ _ => true
  | _ => false
  end.

Definition START_DATE : string := "2024-01-01T00:00:00Z".

(** What [main] does once the entries are fetched. *)
Definition after_fetch (E : Env) (end_date : string) (time_entries : json)
  : M unit :=
  (calendar <- get_calendar E "work" ;;
   match calendar with
   | Some c =>
       add_entries_to_calendar E c time_entries "Europe/Rome" ;;;
       logging INFO (EntriesAdded (take 10 START_DATE) (take 10 end_date) "work")
   | None => logging ERROR CalendarNotFound
   end)%py.

(** The start of an entry, as line 67 parses it. *)
Definition entry_start (entry : json) : result datetime :=
  rbind (rbind (subscript entry "timeInterval")
               (fun ti => subscript ti "start")) strptime.

(** The end of an entry, as line 68 parses it. *)
Definition entry_end (entry : json) : result datetime :=
  rbind (rbind (subscript entry "timeInterval")
               (fun ti => subscript ti "end")) strptime.

(** The line that line 76 logs for an entry. *)
Definition added_line (calendar : Calendar) (entry : json) (l : log_line) : Prop :=
  exists start d,
    entry_start entry = Ok start
    /\ subscript entry "description" = Ok d
    /\ l = mkLine INFO (AddedEntry d (strftime_dmy start) (name calendar)).

(** The four ways the loop body can end. *)
Inductive step_outcome (E : Env) (calendar : Calendar) (timezone : string)
    (entry : json) (w : World) : result unit -> World -> Prop :=
| step_unbuilt e w' :
    log w' = log w -> written w' = written w -> attempts w' = attempts w ->
    step_outcome E calendar timezone entry w (Raise e) w'
| step_refused e ev w' :
    log w' = log w -> written w' = written w ->
    attempts w' = (attempts w ++ [ev])%list ->
    step_outcome E calendar timezone entry w (Raise e) w'
| step_unlogged e ev w' :
    log w' = log w -> written w' = (written w ++ [ev])%list ->
    attempts w' = (attempts w ++ [ev])%list ->
    step_outcome E calendar timezone entry w (Raise e) w'
| step_done ev l w' :
    added_line calendar entry l ->
    log w' = (log w ++ [l])%list -> written w' = (written w ++ [ev])%list ->
    attempts w' = (attempts w ++ [ev])%list ->
    step_outcome E calendar timezone entry w (Ok tt) w'.

(** * Sample data *)

Definition sample_entry : json :=
  JDict [("id", JStr "abc123"); ("description", JStr "Coding");
         ("timeInterval", JDict [("start", JStr "2024-03-01T09:00:00Z");
                                 ("end", JStr "2024-03-01T10:30:00Z")])].

(** A host on UTC whose clock stands at 2024-03-02 08:00:00 plus one
    second per read, a server with the calendars "Home" and "Work" that
    takes every event, and an API that answers with the sample entry. *)
Definition sample_env : Env :=
  mkEnv (fun _ => None)
        (fun _ _ => Ok (mkResponse 200 (Some (JList [sample_entry]))))
        (Ok [mkCalendar "Home" "/calendars/1/"; mkCalendar "Work" "/calendars/2/"])
        (fun k => seconds_of (mkDatetime 2024 3 2 8 0 0) + Z.of_nat k)
        utc
        (fun _ _ _ => None)
        (fun n => if String.eqb n "Europe/Rome" then Some europe_rome else None).

Definition work_calendar : Calendar := mkCalendar "Work" "/calendars/2/".

Definition empty_world : World := mkWorld [] [] [] 0.

Definition no_description_fields : list (string * json) :=
  [("id", JStr "xyz789");
   ("timeInterval", JDict [("start", JStr "2024-03-01T09:00:00Z");
                           ("end", JStr "2024-03-01T10:30:00Z")])].

Definition no_description_entry : json := JDict no_description_fields.

Definition no_description_event : Event :=
  mkEvent (JStr "Work Entry")
          (mkAware (mkDatetime 2024 3 1 10 0 0) 3600)
          (mkAware (mkDatetime 2024 3 1 11 30 0) 3600)
          (mkAware (mkDatetime 2024 3 2 9 0 0) 3600) (JStr "xyz789").

Definition second_entry : json :=
  JDict [("id", JStr "def456"); ("description", JStr "Review");
         ("timeInterval", JDict [("start", JStr "2024-03-01T13:00:00Z");
                                 ("end", JStr "2024-03-01T14:15:00Z")])].

(** The sample surroundings, with a server that refuses the first save. *)
Definition refusing_env : Env :=
  mkEnv (getenv sample_env) (http_get sample_env)
        (principal_calendars sample_env) (utc_now sample_env)
        (system_tz sample_env)
        (fun k _ _ => match k with O => Some DAVError | S _ => None end)
        (timezone_db sample_env).

(** An entry whose start is not in the format of the timestamps. *)
Definition malformed_entry : json :=
  JDict [("id", JStr "bad001"); ("description", JStr "Lunch");
         ("timeInterval", JDict [("start", JStr "2024-03-01 12:00");
                                 ("end", JStr "2024-03-01T13:00:00Z")])].

Definition no_id_entry : json :=
  JDict [("description", JStr "Call");
         ("timeInterval", JDict [("start", JStr "2024-03-01T15:00:00Z");
                                 ("end", JStr "2024-03-01T15:30:00Z")])].

Definition refusing_second_env : Env :=
  mkEnv (getenv sample_env) (http_get sample_env)
        (principal_calendars sample_env) (utc_now sample_env)
        (system_tz sample_env)
        (fun k _ _ => match k with 1%nat => Some DAVError | _ => None end)
        (timezone_db sample_env).

Definition run_writer (E : Env) (entries : list json) : result unit * World :=
  add_entries_to_calendar E work_calendar (JList entries) "Europe/Rome"
                          empty_world.

(** The sample surroundings, with a server that has no "work" calendar. *)
Definition no_work_env : Env :=
  mkEnv (getenv sample_env) (http_get sample_env)
        (Ok [mkCalendar "Home" "/calendars/1/"; mkCalendar "Workout" "/calendars/3/"])
        (utc_now sample_env) (system_tz sample_env) (save_outcome sample_env)
        (timezone_db sample_env).

(** The sample surroundings, with an API that answers the sample entry
    under status 500. *)
Definition server_error_env : Env :=
  mkEnv (getenv sample_env)
        (fun _ _ => Ok (mkResponse 500 (Some (JList [sample_entry]))))
        (principal_calendars sample_env) (utc_now sample_env)
        (system_tz sample_env) (save_outcome sample_env)
        (timezone_db sample_env).

(** The sample surroundings, with no network. *)
Definition offline_env : Env :=
  mkEnv (getenv sample_env) (fun _ _ => Raise RequestException)
        (principal_calendars sample_env) (utc_now sample_env)
        (system_tz sample_env) (save_outcome sample_env)
        (timezone_db sample_env).

(** The sample surroundings, with an API that answers a page that is not
    JSON under status 403. *)
Definition forbidden_env : Env :=
  mkEnv (getenv sample_env) (fun _ _ => Ok (mkResponse 403 None))
        (principal_calendars sample_env) (utc_now sample_env)
        (system_tz sample_env) (save_outcome sample_env)
        (timezone_db sample_env).

(** A host in Italy: its zone is Europe/Rome, and its clock is read at
    2024-03-01 09:00:00 UTC, which is 10:00:00 on its wall. *)
Definition rome_host_env : Env :=
  mkEnv (getenv sample_env) (http_get sample_env)
        (principal_calendars sample_env)
        (fun _ => seconds_of (mkDatetime 2024 3 1 9 0 0))
        europe_rome (save_outcome sample_env) (timezone_db sample_env).

(** The sample surroundings, with a CalDAV server that does not answer. *)
Definition dav_down_env : Env :=
  mkEnv (getenv sample_env) (http_get sample_env) (Raise DAVError)
        (utc_now sample_env) (system_tz sample_env) (save_outcome sample_env)
        (timezone_db sample_env).

(** * Properties *)

(** ** Case-insensitive names *)

Lemma is_upper_range c :
  is_upper c = true <-> (65 <= nat_of_ascii c <= 90)%nat.
Proof.
  unfold is_upper. rewrite andb_true_iff, !Nat.leb_le. tauto.
Qed.

Lemma nat_of_lower_char c :
  nat_of_ascii (lower_char c)
  = if is_upper c then (nat_of_ascii c + 32)%nat else nat_of_ascii c.
Proof.
  unfold lower_char. destruct (is_upper c) eqn:U; [|reflexivity].
  apply is_upper_range in U. apply nat_ascii_embedding. lia.
Qed.

Lemma nat_of_ascii_inj a b : nat_of_ascii a = nat_of_ascii b -> a = b.
Proof.
  intros H. rewrite <- (ascii_nat_embedding a), <- (ascii_nat_embedding b).
  now rewrite H.
Qed.

Lemma lower_char_same_letter a b :
  lower_char a = lower_char b <-> same_letter a b.
Proof.
  unfold same_letter. split.
  - intros H. apply (f_equal nat_of_ascii) in H.
    rewrite !nat_of_lower_char in H.
    destruct (is_upper a) eqn:Ua, (is_upper b) eqn:Ub.
    + left. apply nat_of_ascii_inj. lia.
    + right. left. split; [reflexivity | lia].
    + right. right. split; [reflexivity | lia].
    + left. now apply nat_of_ascii_inj.
  - intros H. apply nat_of_ascii_inj. rewrite !nat_of_lower_char.
    destruct H as [-> | [[Ua H] | [Ub H]]]; [reflexivity | |].
    + rewrite Ua. destruct (is_upper b) eqn:Ub; [|lia].
      apply is_upper_range in Ua, Ub. lia.
    + rewrite Ub. destruct (is_upper a) eqn:Ua; [|lia].
      apply is_upper_range in Ua, Ub. lia.
Qed.

Lemma lower_ci_equal s t : lower s = lower t <-> ci_equal s t.
Proof.
  revert t. induction s as [|a s IH]; intros [|b t]; simpl.
  - split; [constructor | reflexivity].
  - split; [discriminate | inversion 1].
  - split; [discriminate | inversion 1].
  - split.
    + intros H. injection H as Hc Hs. constructor.
      * now apply lower_char_same_letter.
      * now apply IH.
    + inversion 1; subst. f_equal.
      * now apply lower_char_same_letter.
      * now apply IH.
Qed.

Lemma name_test_ci_equal a b :
  String.eqb (lower a) (lower b) = true <-> ci_equal a b.
Proof. rewrite String.eqb_eq. apply lower_ci_equal. Qed.

(** The scan, by cases on its result. *)
Lemma find_calendar_scan (calendars : list Calendar) (calendar_name : string) :
  match find_calendar calendars calendar_name with
  | Some c =>
      exists before after,
        calendars = (before ++ c :: after)%list
        /\ ci_equal (name c) calendar_name
        /\ Forall (fun c' => ~ ci_equal (name c') calendar_name) before
  | None =>
      Forall (fun c' => ~ ci_equal (name c') calendar_name) calendars
  end.
Proof.
  induction calendars as [|c rest IH]; simpl.
  - constructor.
  - destruct (String.eqb (lower (name c)) (lower calendar_name)) eqn:T.
    + exists [], rest. repeat split; [now apply name_test_ci_equal | constructor].
    + assert (N : ~ ci_equal (name c) calendar_name).
      { intros H. apply name_test_ci_equal in H. congruence. }
      destruct (find_calendar rest calendar_name) as [c0|].
      * destruct IH as (before & after & -> & Hc & Hb).
        exists (c :: before), after. repeat split; auto.
      * constructor; assumption.
Qed.

Lemma find_calendar_scan_none (calendars : list Calendar) (calendar_name : string) :
  Forall (fun c' => ~ ci_equal (name c') calendar_name) calendars ->
  find_calendar calendars calendar_name = None.
Proof.
  intros H. pose proof (find_calendar_scan calendars calendar_name) as S.
  destruct (find_calendar calendars calendar_name) as [c|]; [|reflexivity].
  destruct S as (before & after & -> & Hc & _).
  apply Forall_app in H. destruct H as [_ H]. inversion H; subst. contradiction.
Qed.

Lemma find_calendar_with_lower (calendars : list Calendar) (calendar_name : string) :
  find_calendar_with lower calendars calendar_name
  = find_calendar calendars calendar_name.
Proof.
  induction calendars as [|c rest IH]; simpl; [reflexivity|].
  now rewrite IH.
Qed.

(** The scan for any lowering, by cases on its result. *)
Lemma find_calendar_with_scan (str_lower : string -> string)
    (calendars : list Calendar) (calendar_name : string) :
  match find_calendar_with str_lower calendars calendar_name with
  | Some c =>
      exists before after,
        calendars = (before ++ c :: after)%list
        /\ str_lower (name c) = str_lower calendar_name
        /\ Forall (fun c' => str_lower (name c') <> str_lower calendar_name)
                  before
  | None =>
      Forall (fun c' => str_lower (name c') <> str_lower calendar_name)
             calendars
  end.
Proof.
  induction calendars as [|c rest IH]; simpl.
  - constructor.
  - destruct (String.eqb_spec (str_lower (name c)) (str_lower calendar_name))
      as [Heq|Hne].
    + exists [], rest. repeat split; [assumption | constructor].
    + destruct (find_calendar_with str_lower rest calendar_name) as [c0|].
      * destruct IH as (before & after & -> & Hc & Hb).
        exists (c :: before), after. repeat split; auto.
      * constructor; assumption.
Qed.

(** C4: whatever [str.lower] computes, the scan of [get_calendar] returns
    the first calendar, in the order the server lists them, whose lowered
    name equals the lowered request (the case-insensitive comparison of
    line 44), and [None] exactly when no listed calendar has such a name; a
    request for "Work" finds a calendar named "work". *)
Theorem get_calendar_first_lowered_match (str_lower : string -> string)
    (calendars : list Calendar) (calendar_name : string) :
  match find_calendar_with str_lower calendars calendar_name with
  | Some c =>
      exists before after,
        calendars = (before ++ c :: after)%list
        /\ str_lower (name c) = str_lower calendar_name
        /\ Forall (fun c' => str_lower (name c') <> str_lower calendar_name)
                  before
  | None =>
      Forall (fun c' => str_lower (name c') <> str_lower calendar_name)
             calendars
  end
  /\ (find_calendar_with str_lower calendars calendar_name = None
      <-> Forall (fun c' => str_lower (name c') <> str_lower calendar_name)
                 calendars)
  /\ (forall u, find_calendar_with lower [mkCalendar "work" u] "Work"
                = Some (mkCalendar "work" u)).
Proof.
  pose proof (find_calendar_with_scan str_lower calendars calendar_name) as S.
  split; [exact S|]. split; [|reflexivity].
  split.
  - intros H. now rewrite H in S.
  - intros H.
    destruct (find_calendar_with str_lower calendars calendar_name) as [c|];
      [|reflexivity].
    destruct S as (before & after & -> & Hc & _).
    apply Forall_app in H. destruct H as [_ H]. inversion H; subst.
    contradiction.
Qed.

(** ** One entry *)

Section WriterFacts.

Variable E : Env.
Variable calendar : Calendar.
Variable timezone : string.

(** The run of the loop body, case by case. *)
Lemma add_entry_run (entry : json) (w : World) :
  add_entry E calendar timezone entry w =
  match read_entry E timezone entry with
  | Raise e => (Raise e, w)
  | Ok r =>
      match stamp_entry E timezone entry (clock_reads w) r with
      | Raise e => (Raise e, tick w)
      | Ok ev =>
          match save_outcome E (List.length (attempts w)) calendar ev with
          | Some e => (Raise e, attempted ev (tick w))
          | None =>
              match subscript entry "description" with
              | Raise e => (Raise e, persisted ev (tick w))
              | Ok d =>
                  (Ok tt,
                   logged (mkLine INFO (AddedEntry d (strftime_dmy (fst (fst (fst r))))
                                                   (name calendar)))
                          (persisted ev (tick w)))
              end
          end
      end
  end.
Proof.
  unfold add_entry, read_entry, stamp_entry, bind, lift.
  destruct (rbind (rbind (subscript entry "timeInterval")
                         (fun ti => subscript ti "start")) strptime)
    as [start|?]; simpl; [|reflexivity].
  destruct (rbind (rbind (subscript entry "timeInterval")
                         (fun ti => subscript ti "end")) strptime)
    as [end_|?]; simpl; [|reflexivity].
  destruct (entry_get entry "description" (JStr "Work Entry"))
    as [summary_|?]; simpl; [|reflexivity].
  destruct (to_local E start timezone) as [dtstart_|?]; simpl; [|reflexivity].
  destruct (to_local E end_ timezone) as [dtend_|?]; simpl; [|reflexivity].
  unfold datetime_now.
  destruct (host_now E (clock_reads w)) as [now|?]; simpl; [|reflexivity].
  destruct (to_local E now timezone) as [dtstamp_|?]; simpl; [|reflexivity].
  destruct (subscript entry "id") as [uid_|?]; simpl; [|reflexivity].
  unfold save_event; simpl.
  destruct (save_outcome E _ calendar _); simpl; [reflexivity|].
  destruct (subscript entry "description"); reflexivity.
Qed.

Lemma build_event_fields (entry : json) (k : nat) (ev : Event) :
  build_event E timezone entry k = Ok ev ->
  subscript entry "id" = Ok (uid ev)
  /\ entry_get entry "description" (JStr "Work Entry") = Ok (summary ev)
  /\ exists start end_ now,
       read_entry E timezone entry = Ok (start, summary ev, dtstart ev, dtend ev)
       /\ to_local E start timezone = Ok (dtstart ev)
       /\ to_local E end_ timezone = Ok (dtend ev)
       /\ host_now E k = Ok now
       /\ to_local E now timezone = Ok (dtstamp ev).
Proof.
  unfold build_event, read_entry, stamp_entry.
  destruct (rbind (rbind (subscript entry "timeInterval")
                         (fun ti => subscript ti "start")) strptime)
    as [start|?]; simpl; [|discriminate].
  destruct (rbind (rbind (subscript entry "timeInterval")
                         (fun ti => subscript ti "end")) strptime)
    as [end_|?]; simpl; [|discriminate].
  destruct (entry_get entry "description" (JStr "Work Entry"))
    as [summary_|?]; simpl; [|discriminate].
  destruct (to_local E start timezone) as [dtstart_|?] eqn:Hs; simpl; [|discriminate].
  destruct (to_local E end_ timezone) as [dtend_|?] eqn:He; simpl; [|discriminate].
  destruct (host_now E k) as [now|?]; simpl; [|discriminate].
  destruct (to_local E now timezone) as [dtstamp_|?] eqn:Hn; simpl; [|discriminate].
  destruct (subscript entry "id") as [uid_|?]; simpl; [|discriminate].
  intros [= <-]. simpl. repeat split. exists start, end_, now. auto.
Qed.

(** The loop body when the event is built. *)
Lemma add_entry_built (entry : json) (w : World) (ev : Event) :
  build_event E timezone entry (clock_reads w) = Ok ev ->
  exists start,
  add_entry E calendar timezone entry w =
  match save_outcome E (List.length (attempts w)) calendar ev with
  | Some e => (Raise e, attempted ev (tick w))
  | None =>
      match subscript entry "description" with
      | Raise e => (Raise e, persisted ev (tick w))
      | Ok d =>
          (Ok tt,
           logged (mkLine INFO (AddedEntry d (strftime_dmy start) (name calendar)))
                  (persisted ev (tick w)))
      end
  end.
Proof.
  intros H. rewrite add_entry_run. unfold build_event in H.
  destruct (read_entry E timezone entry) as [r|?]; simpl in H; [|discriminate].
  rewrite H. exists (fst (fst (fst r))). reflexivity.
Qed.

(** The loop body when the event cannot be built: nothing is saved and
    nothing is logged. *)
Lemma add_entry_not_built (entry : json) (w : World) (e : exn) :
  build_event E timezone entry (clock_reads w) = Raise e ->
  exists w', add_entry E calendar timezone entry w = (Raise e, w')
             /\ log w' = log w /\ written w' = written w
             /\ attempts w' = attempts w.
Proof.
  intros H. rewrite add_entry_run. unfold build_event in H.
  destruct (read_entry E timezone entry) as [r|?]; simpl in H.
  - rewrite H. eexists; split; [reflexivity|]. auto.
  - injection H as ->. eexists; split; [reflexivity|]. auto.
Qed.

End WriterFacts.

(** ** The sample entry of the specification *)

(** C2: for the sample entry and the zone Europe/Rome, the event the
    writer builds and hands to the save operation has [dtstart]
    2024-03-01T10:00:00+01:00, [dtend] 2024-03-01T11:30:00+01:00, summary
    "Coding" and uid "abc123": the UTC timestamps are parsed with the format
    [%Y-%m-%dT%H:%M:%SZ] and converted to the configured zone. *)
Theorem sample_entry_event (E : Env) (calendar : Calendar) (w : World)
    (now : datetime) (stamp : aware) :
  timezone_db E "Europe/Rome" = Some europe_rome ->
  host_now E (clock_reads w) = Ok now ->
  astimezone (replace_utc now) europe_rome = Ok stamp ->
  let ev := mkEvent (JStr "Coding")
                    (mkAware (mkDatetime 2024 3 1 10 0 0) 3600)
                    (mkAware (mkDatetime 2024 3 1 11 30 0) 3600)
                    stamp (JStr "abc123") in
  strptime (JStr "2024-03-01T09:00:00Z") = Ok (mkDatetime 2024 3 1 9 0 0)
  /\ strptime (JStr "2024-03-01T10:30:00Z") = Ok (mkDatetime 2024 3 1 10 30 0)
  /\ build_event E "Europe/Rome" sample_entry (clock_reads w) = Ok ev
  /\ attempts (snd (add_entry E calendar "Europe/Rome" sample_entry w))
     = (attempts w ++ [ev])%list.
Proof.
  intros Hdb Hnow Hstamp ev.
  assert (P1 : strptime (JStr "2024-03-01T09:00:00Z")
               = Ok (mkDatetime 2024 3 1 9 0 0)) by (vm_compute; reflexivity).
  assert (P2 : strptime (JStr "2024-03-01T10:30:00Z")
               = Ok (mkDatetime 2024 3 1 10 30 0)) by (vm_compute; reflexivity).
  assert (A1 : astimezone (replace_utc (mkDatetime 2024 3 1 9 0 0)) europe_rome
               = Ok (mkAware (mkDatetime 2024 3 1 10 0 0) 3600))
    by (vm_compute; reflexivity).
  assert (A2 : astimezone (replace_utc (mkDatetime 2024 3 1 10 30 0)) europe_rome
               = Ok (mkAware (mkDatetime 2024 3 1 11 30 0) 3600))
    by (vm_compute; reflexivity).
  assert (B : build_event E "Europe/Rome" sample_entry (clock_reads w) = Ok ev).
  { unfold build_event, read_entry, stamp_entry, to_local, pytz_timezone.
    rewrite Hdb. unfold sample_entry.
    cbn [rbind subscript assoc String.eqb Ascii.eqb Bool.eqb entry_get dict_get].
    rewrite P1, P2.
    cbn [rbind]. rewrite A1. cbn [rbind]. rewrite A2. cbn [rbind].
    rewrite Hnow. cbn [rbind]. rewrite Hstamp. reflexivity. }
  split; [exact P1|]. split; [exact P2|]. split; [exact B|].
  destruct (add_entry_built E calendar _ _ _ _ B) as [start ->].
  destruct (save_outcome E _ calendar ev); [reflexivity|].
  destruct (subscript sample_entry "description"); reflexivity.
Qed.

Lemma sample_entry_event_witness :
  build_event sample_env "Europe/Rome" sample_entry (clock_reads empty_world)
  = Ok (mkEvent (JStr "Coding")
                (mkAware (mkDatetime 2024 3 1 10 0 0) 3600)
                (mkAware (mkDatetime 2024 3 1 11 30 0) 3600)
                (mkAware (mkDatetime 2024 3 2 9 0 0) 3600) (JStr "abc123")).
Proof.
  assert (Hdb : timezone_db sample_env "Europe/Rome" = Some europe_rome)
    by reflexivity.
  assert (Hnow : host_now sample_env (clock_reads empty_world)
                 = Ok (mkDatetime 2024 3 2 8 0 0)) by (vm_compute; reflexivity).
  assert (Hstamp : astimezone (replace_utc (mkDatetime 2024 3 2 8 0 0)) europe_rome
                   = Ok (mkAware (mkDatetime 2024 3 2 9 0 0) 3600))
    by (vm_compute; reflexivity).
  exact (proj1 (proj2 (proj2
           (sample_entry_event sample_env work_calendar empty_world _ _
                               Hdb Hnow Hstamp)))).
Defined.

(** ** Entries without a description *)

(** C5: when an entry has no [description] field and its other fields let
    lines 67-74 build the event, the event handed to the save operation has
    the summary "Work Entry". *)
Theorem missing_description_default (E : Env) (calendar : Calendar)
    (timezone : string) (fields : list (string * json)) (w : World) (ev : Event) :
  assoc "description" fields = None ->
  build_event E timezone (JDict fields) (clock_reads w) = Ok ev ->
  summary ev = JStr "Work Entry"
  /\ attempts (snd (add_entry E calendar timezone (JDict fields) w))
     = (attempts w ++ [ev])%list.
Proof.
  intros Hd B. split.
  - apply build_event_fields in B. destruct B as (_ & Hs & _).
    unfold entry_get, dict_get in Hs. rewrite Hd in Hs. now injection Hs.
  - destruct (add_entry_built E calendar _ _ _ _ B) as [start ->].
    destruct (save_outcome E _ calendar ev); [reflexivity|].
    destruct (subscript (JDict fields) "description"); reflexivity.
Qed.

Lemma no_description_built :
  build_event sample_env "Europe/Rome" no_description_entry
              (clock_reads empty_world) = Ok no_description_event.
Proof. vm_compute. reflexivity. Qed.

Lemma missing_description_default_witness :
  summary no_description_event = JStr "Work Entry"
  /\ attempts (snd (add_entry sample_env work_calendar "Europe/Rome"
                              no_description_entry empty_world))
     = (attempts empty_world ++ [no_description_event])%list.
Proof.
  exact (missing_description_default sample_env work_calendar "Europe/Rome"
           no_description_fields empty_world no_description_event eq_refl no_description_built).
Defined.

(** C6, at an entry without a description: its save succeeds and the
    event is written, yet line 76 raises [KeyError] on
    [entry['description']] and no log line is emitted for the entry. *)
Theorem missing_description_no_log_line (E : Env) (calendar : Calendar)
    (timezone : string) (fields : list (string * json)) (w : World) (ev : Event) :
  assoc "description" fields = None ->
  build_event E timezone (JDict fields) (clock_reads w) = Ok ev ->
  save_outcome E (List.length (attempts w)) calendar ev = None ->
  exists w',
    add_entry E calendar timezone (JDict fields) w
    = (Raise (KeyError "description"), w')
    /\ written w' = (written w ++ [ev])%list
    /\ log w' = log w.
Proof.
  intros Hd B Hsave.
  destruct (add_entry_built E calendar _ _ _ _ B) as [start ->].
  rewrite Hsave. simpl. rewrite Hd.
  eexists; split; [reflexivity|]. split; reflexivity.
Qed.

Lemma missing_description_no_log_line_witness :
  exists w',
    add_entry sample_env work_calendar "Europe/Rome" no_description_entry
              empty_world
    = (Raise (KeyError "description"), w')
    /\ written w' = (written empty_world ++ [no_description_event])%list
    /\ log w' = log empty_world.
Proof.
  exact (missing_description_no_log_line sample_env work_calendar "Europe/Rome"
           no_description_fields empty_world no_description_event eq_refl no_description_built
           eq_refl).
Defined.

(** With a description, a successful save is followed by exactly one
    informational line. *)
Lemma described_entry_one_log_line (E : Env) (calendar : Calendar)
    (timezone : string) (entry : json) (w : World) (ev : Event) (d : json) :
  build_event E timezone entry (clock_reads w) = Ok ev ->
  save_outcome E (List.length (attempts w)) calendar ev = None ->
  subscript entry "description" = Ok d ->
  exists w' date,
    add_entry E calendar timezone entry w = (Ok tt, w')
    /\ written w' = (written w ++ [ev])%list
    /\ log w' = (log w ++ [mkLine INFO (AddedEntry d date (name calendar))])%list.
Proof.
  intros B Hsave Hd.
  destruct (add_entry_built E calendar _ _ _ _ B) as [start ->].
  rewrite Hsave, Hd. eexists. exists (strftime_dmy start).
  split; [reflexivity|]. split; reflexivity.
Qed.

(** ** A mapping in place of the list of entries *)

(** C10 as stated fails at the empty mapping: the loop has no key to
    fault on and the writer returns normally. *)
Lemma empty_mapping_no_fault :
  add_entries_to_calendar sample_env work_calendar (JDict []) "Europe/Rome"
                          empty_world
  = (Ok tt, empty_world).
Proof. reflexivity. Qed.

(** C10, amended: when the response is a mapping the writer walks its
    keys; with at least one key it faults with [TypeError] on the first,
    before any save, and with none it returns normally; either way no event
    is saved and no line is logged. *)
Theorem mapping_response_writes_nothing (E : Env) (calendar : Calendar)
    (timezone : string) (fields : list (string * json)) (w : World) :
  add_entries_to_calendar E calendar (JDict fields) timezone w
  = (match fields with
     | [] => Ok tt
     | _ :: _ => Raise TypeError
     end, w).
Proof.
  unfold add_entries_to_calendar, bind, lift. simpl.
  destruct fields as [|[k v] rest]; [reflexivity|].
  simpl. unfold bind. rewrite add_entry_run. reflexivity.
Qed.

(** ** The loop *)

Section Loop.

Variable E : Env.
Variable calendar : Calendar.
Variable timezone : string.

Local Abbreviation body := (add_entry E calendar timezone).

Ltac extend_world :=
  unfold grows; repeat split; eexists; simpl;
  first [reflexivity | symmetry; apply app_nil_r].

Lemma grows_refl w : grows w w.
Proof. repeat split; exists []; now rewrite app_nil_r. Qed.

Lemma grows_trans w1 w2 w3 : grows w1 w2 -> grows w2 w3 -> grows w1 w3.
Proof.
  intros ([l1 H1] & [x1 H2] & [a1 H3]) ([l2 H4] & [x2 H5] & [a2 H6]).
  repeat split.
  - exists (l1 ++ l2)%list. now rewrite H4, H1, app_assoc.
  - exists (x1 ++ x2)%list. now rewrite H5, H2, app_assoc.
  - exists (a1 ++ a2)%list. now rewrite H6, H3, app_assoc.
Qed.

Lemma add_entry_grows entry w :
  grows w (snd (body entry w))
  /\ (List.length (attempts (snd (body entry w)))
      <= S (List.length (attempts w)))%nat.
Proof.
  rewrite add_entry_run.
  destruct (read_entry E timezone entry) as [r|?]; simpl.
  2:{ split; [apply grows_refl | lia]. }
  destruct (stamp_entry E timezone entry (clock_reads w) r) as [ev|?]; simpl.
  2:{ split; [extend_world | lia]. }
  destruct (save_outcome E _ calendar ev); simpl.
  { split; [extend_world | rewrite length_app; simpl; lia]. }
  destruct (subscript entry "description"); simpl;
    (split; [extend_world | rewrite length_app; simpl; lia]).
Qed.

(** An entry that goes through makes exactly one attempt. *)
Lemma add_entry_ok_attempt entry w w' :
  body entry w = (Ok tt, w') ->
  exists ev, build_event E timezone entry (clock_reads w) = Ok ev
             /\ attempts w' = (attempts w ++ [ev])%list
             /\ written w' = (written w ++ [ev])%list
             /\ clock_reads w' = S (clock_reads w).
Proof.
  unfold build_event. rewrite add_entry_run.
  destruct (read_entry E timezone entry) as [r|?]; simpl; [|discriminate].
  destruct (stamp_entry E timezone entry (clock_reads w) r) as [ev|?];
    [|discriminate].
  destruct (save_outcome E _ calendar ev); [discriminate|].
  destruct (subscript entry "description"); [|discriminate].
  intros [= <-]. exists ev. repeat split.
Qed.

Lemma for_each_app (pre post : list json) (w : World) :
  for_each (pre ++ post) body w =
  match for_each pre body w with
  | (Ok _, w1) => for_each post body w1
  | (Raise e, w1) => (Raise e, w1)
  end.
Proof.
  revert w. induction pre as [|x pre IH]; intros w; simpl; [reflexivity|].
  unfold bind. destruct (body x w) as [[[]|e] w1]; [apply IH | reflexivity].
Qed.

Lemma for_each_grows (entries : list json) (w : World) :
  grows w (snd (for_each entries body w))
  /\ (List.length (attempts (snd (for_each entries body w)))
      <= List.length (attempts w) + List.length entries)%nat.
Proof.
  revert w. induction entries as [|x rest IH]; intros w; simpl.
  - split; [apply grows_refl | lia].
  - unfold bind. destruct (add_entry_grows x w) as [G L].
    destruct (body x w) as [[[]|e] w1]; simpl in *.
    + destruct (IH w1) as [G' L']. split; [eapply grows_trans; eauto | lia].
    + split; [assumption | lia].
Qed.

(** Entries that all go through: one attempt each, in order. *)
Lemma for_each_ok_attempts (entries : list json) (w w' : World) :
  for_each entries body w = (Ok tt, w') ->
  exists evs,
    attempts w' = (attempts w ++ evs)%list
    /\ written w' = (written w ++ evs)%list
    /\ Forall2 (fun e ev => subscript e "id" = Ok (uid ev)) entries evs.
Proof.
  revert w. induction entries as [|x rest IH]; intros w; simpl.
  - intros [= <-]. exists []. rewrite !app_nil_r. repeat split. constructor.
  - unfold bind. destruct (body x w) as [[[]|e] w1] eqn:Hx; [|discriminate].
    intros Hrest. apply add_entry_ok_attempt in Hx.
    destruct Hx as (ev & B & Ha & Hw & _).
    destruct (IH _ Hrest) as (evs & Ha' & Hw' & F).
    exists (ev :: evs). rewrite Ha', Hw', Ha, Hw, <- !app_assoc.
    repeat split. constructor; [|assumption].
    now apply build_event_fields in B.
Qed.

Lemma for_each_all_saved (entries : list json) (w : World) :
  (forall i e, nth_error entries i = Some e ->
     exists ev d, build_event E timezone e (clock_reads w + i)%nat = Ok ev
                  /\ subscript e "description" = Ok d) ->
  (forall k ev, save_outcome E k calendar ev = None) ->
  exists w', for_each entries body w = (Ok tt, w').
Proof.
  intros Hent Hsave. revert w Hent.
  induction entries as [|x rest IH]; intros w Hent; simpl.
  - eexists; reflexivity.
  - destruct (Hent 0%nat x eq_refl) as (ev & d & B & Hd).
    rewrite Nat.add_0_r in B.
    destruct (described_entry_one_log_line E calendar timezone x w ev d B
                (Hsave _ _) Hd) as (w1 & date & Hrun & _ & _).
    unfold bind. rewrite Hrun.
    apply IH. intros i e Hi.
    apply add_entry_ok_attempt in Hrun. destruct Hrun as (_ & _ & _ & _ & ->).
    specialize (Hent (S i) e Hi). now rewrite Nat.add_succ_r in Hent.
Qed.

End Loop.

(** ** One save per entry *)

(** C1 as stated fails: two complete entries, and a first save that
    faults; one save is attempted, not two. *)
Lemma refused_save_one_attempt :
  forallb has_claimed_fields [sample_entry; second_entry] = true
  /\ List.length
       (attempts (snd (add_entries_to_calendar refusing_env work_calendar
                         (JList [sample_entry; second_entry]) "Europe/Rome"
                         empty_world)))
     = 1%nat
  /\ List.length [sample_entry; second_entry] = 2%nat.
Proof. vm_compute. repeat split. Qed.

(** C1, amended: given N entries whose fields let lines 67-74 build the
    event and which have a description, and a server that takes every
    save, the writer returns normally after exactly N save operations, and
    the i-th saved event has the [id] of the i-th entry as its [uid]. *)
Theorem every_entry_saved (E : Env) (calendar : Calendar) (timezone : string)
    (entries : list json) (w : World) :
  (forall i e, nth_error entries i = Some e ->
     exists ev d, build_event E timezone e (clock_reads w + i)%nat = Ok ev
                  /\ subscript e "description" = Ok d) ->
  (forall k ev, save_outcome E k calendar ev = None) ->
  exists w' evs,
    add_entries_to_calendar E calendar (JList entries) timezone w = (Ok tt, w')
    /\ attempts w' = (attempts w ++ evs)%list
    /\ written w' = (written w ++ evs)%list
    /\ List.length evs = List.length entries
    /\ Forall2 (fun e ev => subscript e "id" = Ok (uid ev)) entries evs.
Proof.
  intros Hent Hsave.
  destruct (for_each_all_saved E calendar timezone entries w Hent Hsave)
    as [w' Hrun].
  destruct (for_each_ok_attempts E calendar timezone entries w w' Hrun)
    as (evs & Ha & Hw & F).
  exists w', evs. repeat split; try assumption.
  symmetry. eapply Forall2_length; eassumption.
Qed.

Lemma sample_entries_ready (i : nat) (e : json) :
  nth_error [sample_entry; second_entry] i = Some e ->
  exists ev d,
    build_event sample_env "Europe/Rome" e (clock_reads empty_world + i)%nat
    = Ok ev
    /\ subscript e "description" = Ok d.
Proof.
  destruct i as [|[|i]]; simpl.
  - intros [= <-]. eexists. eexists. split; vm_compute; reflexivity.
  - intros [= <-]. eexists. eexists. split; vm_compute; reflexivity.
  - destruct i; discriminate.
Qed.

Lemma every_entry_saved_witness :
  exists w' evs,
    add_entries_to_calendar sample_env work_calendar
      (JList [sample_entry; second_entry]) "Europe/Rome" empty_world
    = (Ok tt, w')
    /\ attempts w' = (attempts empty_world ++ evs)%list
    /\ written w' = (written empty_world ++ evs)%list
    /\ List.length evs = List.length [sample_entry; second_entry]
    /\ Forall2 (fun e ev => subscript e "id" = Ok (uid ev))
               [sample_entry; second_entry] evs.
Proof.
  exact (every_entry_saved sample_env work_calendar "Europe/Rome"
           [sample_entry; second_entry] empty_world sample_entries_ready
           (fun _ _ => eq_refl)).
Defined.

(** In every run the saves attempted are at most one per entry, and
    nothing is removed from the calendar or from the log. *)
Lemma writer_attempts_bounded (E : Env) (calendar : Calendar)
    (timezone : string) (entries : list json) (w : World) :
  let w' := snd (add_entries_to_calendar E calendar (JList entries) timezone w) in
  grows w w'
  /\ (List.length (attempts w')
      <= List.length (attempts w) + List.length entries)%nat.
Proof.
  unfold add_entries_to_calendar, bind, lift. simpl.
  apply for_each_grows.
Qed.

(** ** A fault ends the run *)

(** C8: when the entries before one are processed without fault and that
    one faults, the writer ends with that fault in the world the faulting
    entry left: the entries after it are not processed, at most one save
    was attempted per entry reached, and the events written before the
    fault are still written. *)
Theorem fault_aborts_remaining (E : Env) (calendar : Calendar)
    (timezone : string) (pre post : list json) (entry : json)
    (w w1 w2 : World) (e : exn) :
  for_each pre (add_entry E calendar timezone) w = (Ok tt, w1) ->
  add_entry E calendar timezone entry w1 = (Raise e, w2) ->
  add_entries_to_calendar E calendar (JList (pre ++ entry :: post)) timezone w
  = (Raise e, w2)
  /\ (exists evs, written w1 = (written w ++ evs)%list
                  /\ List.length evs = List.length pre)
  /\ (exists evs, written w2 = (written w1 ++ evs)%list)
  /\ (List.length (attempts w2)
      <= List.length (attempts w) + List.length pre + 1)%nat.
Proof.
  intros Hpre Hent.
  destruct (for_each_ok_attempts E calendar timezone pre w w1 Hpre)
    as (evs & Ha & Hw & F).
  destruct (add_entry_grows E calendar timezone entry w1) as [G L].
  rewrite Hent in G, L. simpl in G, L.
  split; [|split; [|split]].
  - unfold add_entries_to_calendar, bind, lift. simpl.
    rewrite for_each_app, Hpre. simpl. unfold bind. now rewrite Hent.
  - exists evs. split; [assumption|]. symmetry. eapply Forall2_length; eassumption.
  - apply G.
  - rewrite Ha, length_app in L.
    rewrite <- (Forall2_length F) in L. lia.
Qed.

Lemma faults_at_second_entry :
  let first := snd (add_entry sample_env work_calendar "Europe/Rome"
                              sample_entry empty_world) in
  (fst (run_writer sample_env [sample_entry; malformed_entry; second_entry])
   = Raise ValueError
   /\ written (snd (run_writer sample_env
                      [sample_entry; malformed_entry; second_entry]))
      = written first)
  /\ (fst (run_writer sample_env [sample_entry; no_id_entry; second_entry])
      = Raise (KeyError "id")
      /\ written (snd (run_writer sample_env
                         [sample_entry; no_id_entry; second_entry]))
         = written first)
  /\ (fst (run_writer refusing_second_env
             [sample_entry; second_entry; second_entry])
      = Raise DAVError
      /\ written (snd (run_writer refusing_second_env
                         [sample_entry; second_entry; second_entry]))
         = written first).
Proof. vm_compute. repeat split. Qed.

Lemma fault_aborts_remaining_witness :
  add_entries_to_calendar sample_env work_calendar
    (JList ([sample_entry] ++ malformed_entry :: [second_entry])) "Europe/Rome"
    empty_world
  = (Raise ValueError,
     snd (add_entry sample_env work_calendar "Europe/Rome" sample_entry
                    empty_world)).
Proof.
  assert (H1 : for_each [sample_entry]
                 (add_entry sample_env work_calendar "Europe/Rome") empty_world
               = (Ok tt, snd (add_entry sample_env work_calendar "Europe/Rome"
                                        sample_entry empty_world)))
    by (vm_compute; reflexivity).
  assert (H2 : add_entry sample_env work_calendar "Europe/Rome" malformed_entry
                 (snd (add_entry sample_env work_calendar "Europe/Rome"
                                 sample_entry empty_world))
               = (Raise ValueError,
                  snd (add_entry sample_env work_calendar "Europe/Rome"
                                 sample_entry empty_world)))
    by (vm_compute; reflexivity).
  exact (proj1 (fault_aborts_remaining sample_env work_calendar "Europe/Rome"
                  [sample_entry] [second_entry] malformed_entry
                  empty_world _ _ ValueError H1 H2)).
Defined.

(** ** The run of [main] *)

Lemma main_run (E : Env) (w : World) (now : datetime) :
  host_now E (clock_reads w) = Ok now ->
  main E w =
  match fetch_time_entries E START_DATE (strftime_iso now) (tick w) with
  | (Ok v, w1) => after_fetch E (strftime_iso now) v w1
  | (Raise e, w1) => (Raise e, w1)
  end.
Proof.
  intros Hnow. unfold main, bind at 1. unfold datetime_now.
  rewrite Hnow. reflexivity.
Qed.

Lemma fetch_run (E : Env) (start_date end_date : string) (w : World) :
  fetch_time_entries E start_date end_date w =
  match http_get E (time_entries_url E start_date end_date)
                 (getenv E "API_KEY") with
  | Raise e => (Raise e, w)
  | Ok response =>
      (match body response with
       | Some v => Ok v
       | None => Raise JSONDecodeError
       end,
       logged (mkLine INFO (Fetching (take 10 start_date) (take 10 end_date))) w)
  end.
Proof.
  unfold fetch_time_entries, bind, lift.
  destruct (http_get E _ _) as [response|e]; reflexivity.
Qed.

(** C3: in a run that reaches the locator and in which no calendar of the
    server has a name equal to "work" under case-insensitive comparison,
    [main] returns normally, no save is attempted and nothing is written,
    and the log gains the line of the fetcher and exactly one error line. *)
Theorem calendar_not_found_run (E : Env) (w : World) (now : datetime)
    (response : Response) (v : json) (calendars : list Calendar) :
  host_now E (clock_reads w) = Ok now ->
  http_get E (time_entries_url E START_DATE (strftime_iso now))
           (getenv E "API_KEY") = Ok response ->
  body response = Some v ->
  principal_calendars E = Ok calendars ->
  Forall (fun c => ~ ci_equal (name c) "work") calendars ->
  exists w',
    main E w = (Ok tt, w')
    /\ attempts w' = attempts w
    /\ written w' = written w
    /\ clock_reads w' = S (clock_reads w)
    /\ log w' = (log w ++ [mkLine INFO (Fetching (take 10 START_DATE)
                                                 (take 10 (strftime_iso now)));
                           mkLine ERROR CalendarNotFound])%list
    /\ List.length (filter is_error (log w'))
       = S (List.length (filter is_error (log w))).
Proof.
  intros Hnow Hget Hbody Hcals Hnone.
  assert (Hfind : find_calendar calendars "work" = None).
  { apply (find_calendar_scan_none calendars "work"). exact Hnone. }
  rewrite (main_run E w now Hnow), fetch_run, Hget, Hbody.
  unfold after_fetch, get_calendar, bind, lift. rewrite Hcals. unfold ret.
  rewrite Hfind. eexists. split; [reflexivity|]. simpl.
  repeat split.
  - now rewrite <- app_assoc.
  - rewrite <- app_assoc, filter_app, length_app. simpl. lia.
Qed.

Lemma not_ci_equal (a b : string) :
  String.eqb (lower a) (lower b) = false -> ~ ci_equal a b.
Proof. intros H C. apply name_test_ci_equal in C. congruence. Qed.

Lemma calendar_not_found_run_witness :
  exists w',
    main no_work_env empty_world = (Ok tt, w')
    /\ attempts w' = attempts empty_world
    /\ written w' = written empty_world
    /\ clock_reads w' = S (clock_reads empty_world)
    /\ log w' = (log empty_world
                 ++ [mkLine INFO (Fetching (take 10 START_DATE)
                        (take 10 (strftime_iso (mkDatetime 2024 3 2 8 0 0))));
                     mkLine ERROR CalendarNotFound])%list
    /\ List.length (filter is_error (log w'))
       = S (List.length (filter is_error (log empty_world))).
Proof.
  assert (Hnow : host_now no_work_env (clock_reads empty_world)
                 = Ok (mkDatetime 2024 3 2 8 0 0)) by (vm_compute; reflexivity).
  assert (Hnone : Forall (fun c => ~ ci_equal (name c) "work")
                    [mkCalendar "Home" "/calendars/1/";
                     mkCalendar "Workout" "/calendars/3/"]).
  { repeat constructor; apply not_ci_equal; reflexivity. }
  exact (calendar_not_found_run no_work_env empty_world
           (mkDatetime 2024 3 2 8 0 0)
           (mkResponse 200 (Some (JList [sample_entry])))
           (JList [sample_entry]) _ Hnow eq_refl eq_refl eq_refl Hnone).
Defined.

(** ** The fetcher *)

(** C9: when the fetcher faults, [main] ends with that fault, no save
    is attempted, nothing is written and no line that speaks of "added" is
    logged; and when the request is answered, whatever the status code of
    the answer, the fetcher returns the parsed body and [main] goes on with
    it. *)
Theorem fetch_fault_or_body (E : Env) (w : World) (now : datetime) :
  host_now E (clock_reads w) = Ok now ->
  (forall e w1,
     fetch_time_entries E START_DATE (strftime_iso now) (tick w) = (Raise e, w1) ->
     main E w = (Raise e, w1)
     /\ attempts w1 = attempts w
     /\ written w1 = written w
     /\ exists ls, log w1 = (log w ++ ls)%list
                   /\ Forall (fun l => says_added l = false) ls)
  /\ (forall response v,
        http_get E (time_entries_url E START_DATE (strftime_iso now))
                 (getenv E "API_KEY") = Ok response ->
        body response = Some v ->
        let w1 := logged (mkLine INFO (Fetching (take 10 START_DATE)
                                         (take 10 (strftime_iso now)))) (tick w) in
        fetch_time_entries E START_DATE (strftime_iso now) (tick w) = (Ok v, w1)
        /\ main E w = after_fetch E (strftime_iso now) v w1).
Proof.
  intros Hnow. split.
  - intros e w1 Hfetch. rewrite (main_run E w now Hnow), Hfetch.
    split; [reflexivity|].
    rewrite fetch_run in Hfetch.
    destruct (http_get E _ _) as [response|e'].
    + destruct (body response); [discriminate|].
      injection Hfetch as <- <-. simpl. repeat split.
      eexists. split; [reflexivity|]. repeat constructor.
    + injection Hfetch as <- <-. simpl. repeat split.
      exists []. rewrite app_nil_r. split; [reflexivity | constructor].
  - intros response v Hget Hbody w1.
    assert (F : fetch_time_entries E START_DATE (strftime_iso now) (tick w)
                = (Ok v, w1)).
    { rewrite fetch_run, Hget, Hbody. reflexivity. }
    split; [exact F|].
    rewrite (main_run E w now Hnow), F. reflexivity.
Qed.

Lemma fetch_fault_or_body_witness :
  let now := mkDatetime 2024 3 2 8 0 0 in
  let w1 := logged (mkLine INFO (Fetching (take 10 START_DATE)
                                   (take 10 (strftime_iso now))))
                   (tick empty_world) in
  fetch_time_entries server_error_env START_DATE (strftime_iso now)
                     (tick empty_world)
  = (Ok (JList [sample_entry]), w1)
  /\ main server_error_env empty_world
     = after_fetch server_error_env (strftime_iso now) (JList [sample_entry]) w1.
Proof.
  assert (Hnow : host_now server_error_env (clock_reads empty_world)
                 = Ok (mkDatetime 2024 3 2 8 0 0)) by (vm_compute; reflexivity).
  exact (proj2 (fetch_fault_or_body server_error_env empty_world _ Hnow)
               (mkResponse 500 (Some (JList [sample_entry])))
               (JList [sample_entry]) eq_refl eq_refl).
Defined.

(** Runs of [main]: an answer under status 500 is used and its entry is
    written; without a network, or with an answer that is not JSON, the run
    ends in the fetcher. *)
Lemma main_runs_by_answer :
  (fst (main server_error_env empty_world) = Ok tt
   /\ List.length (written (snd (main server_error_env empty_world))) = 1%nat)
  /\ main offline_env empty_world = (Raise RequestException, tick empty_world)
  /\ main forbidden_env empty_world
     = (Raise JSONDecodeError,
        logged (mkLine INFO (Fetching "2024-01-01" "2024-03-02"))
               (tick empty_world)).
Proof. vm_compute. repeat split. Qed.

(** ** Calendar arithmetic *)

Lemma year_quotients (q400 q100 q4 q1 : Z) :
  0 <= q100 <= 3 -> 0 <= q4 <= 24 -> 0 <= q1 <= 3 ->
  let p := q400 * 400 + q100 * 100 + q4 * 4 + q1 in
  p / 4 = q400 * 100 + q100 * 25 + q4
  /\ p / 100 = q400 * 4 + q100
  /\ p / 400 = q400.
Proof.
  intros H100 H4 H1 p. subst p. repeat split.
  - symmetry. apply (Z.div_unique _ 4 _ q1); lia.
  - symmetry. apply (Z.div_unique _ 100 _ (q4 * 4 + q1)); lia.
  - symmetry. apply (Z.div_unique _ 400 _ (q100 * 100 + q4 * 4 + q1)); lia.
Qed.

Lemma year_leap (q400 q100 q4 q1 : Z) :
  0 <= q100 <= 3 -> 0 <= q4 <= 24 -> 0 <= q1 <= 3 ->
  is_leap (q400 * 400 + 1 + q100 * 100 + q4 * 4 + q1)
  = (q1 =? 3) && (negb (q4 =? 24) || (q100 =? 3)).
Proof.
  intros H100 H4 H1. unfold is_leap.
  set (y := q400 * 400 + 1 + q100 * 100 + q4 * 4 + q1).
  assert (M4 : y mod 4 = (q1 + 1) mod 4).
  { unfold y. replace (q400 * 400 + 1 + q100 * 100 + q4 * 4 + q1)
      with (q1 + 1 + (q400 * 100 + q100 * 25 + q4) * 4) by lia.
    apply Z.mod_add. lia. }
  assert (M100 : y mod 100 = (q4 * 4 + q1 + 1) mod 100).
  { unfold y. replace (q400 * 400 + 1 + q100 * 100 + q4 * 4 + q1)
      with (q4 * 4 + q1 + 1 + (q400 * 4 + q100) * 100) by lia.
    apply Z.mod_add. lia. }
  assert (M400 : y mod 400 = (q100 * 100 + q4 * 4 + q1 + 1) mod 400).
  { unfold y. replace (q400 * 400 + 1 + q100 * 100 + q4 * 4 + q1)
      with (q100 * 100 + q4 * 4 + q1 + 1 + q400 * 400) by lia.
    apply Z.mod_add. lia. }
  rewrite M4, M100, M400.
  destruct (Z.eqb_spec q1 3) as [->|N1].
  - destruct (Z.eqb_spec q4 24) as [->|N4].
    + destruct (Z.eqb_spec q100 3) as [->|N100]; [reflexivity|].
      assert (q100 = 0 \/ q100 = 1 \/ q100 = 2) as [->|[->| ->]] by lia;
        reflexivity.
    + replace ((3 + 1) mod 4) with 0 by reflexivity. simpl.
      assert (L : (q4 * 4 + 3 + 1) mod 100 <> 0).
      { rewrite Z.mod_small; lia. }
      apply Z.eqb_neq in L. now rewrite L.
  - assert (L : (q1 + 1) mod 4 <> 0) by (rewrite Z.mod_small; lia).
    apply Z.eqb_neq in L. now rewrite L.
Qed.

Ltac eval_closed_bool t :=
  let v := eval vm_compute in t in
  lazymatch v with
  | true => change t with true
  | false => change t with false
  end.

Ltac eval_closed_Z t :=
  let v := eval vm_compute in t in
  lazymatch v with
  | Z0 => change t with v
  | Zpos _ => change t with v
  end.

Ltac eval_tables :=
  repeat match goal with
    | |- context [DAYS_BEFORE_MONTH ?x] => eval_closed_Z (DAYS_BEFORE_MONTH x)
    | |- context [DAYS_IN_MONTH ?x] => eval_closed_Z (DAYS_IN_MONTH x)
    | |- context [Z.ltb ?a ?c] => eval_closed_bool (Z.ltb a c)
    | |- context [Z.eqb ?a ?c] => eval_closed_bool (Z.eqb a c)
    end;
  cbn [andb fst snd].

Lemma month_of_day (r : Z) (b : bool) :
  0 <= r < 365 ->
  let m := Z.shiftr (r + 50) 5 in
  let preceding := DAYS_BEFORE_MONTH m + (if (2 <? m) && b then 1 else 0) in
  let md :=
    if r <? preceding then
      (m - 1,
       r - (preceding
            - (DAYS_IN_MONTH (m - 1) + (if (m - 1 =? 2) && b then 1 else 0))) + 1)
    else (m, r - preceding + 1) in
  DAYS_BEFORE_MONTH (fst md) + (if (2 <? fst md) && b then 1 else 0) + snd md
  = r + 1
  /\ 1 <= fst md <= 12.
Proof.
  intros Hr. rewrite Z.shiftr_div_pow2 by lia. change (2 ^ 5) with 32.
  pose proof (Z.div_mod (r + 50) 32 ltac:(lia)) as D.
  pose proof (Z.mod_pos_bound (r + 50) 32 ltac:(lia)) as B.
  set (m := (r + 50) / 32) in *. clearbody m.
  set (x := (r + 50) mod 32) in *. clearbody x.
  cbv zeta.
  assert (m = 1 \/ m = 2 \/ m = 3 \/ m = 4 \/ m = 5 \/ m = 6 \/ m = 7 \/ m = 8
          \/ m = 9 \/ m = 10 \/ m = 11 \/ m = 12) as Hcases by lia.
  repeat (destruct Hcases as [-> | Hcases]); try subst m; destruct b;
    eval_tables;
    match goal with
    | |- context [Z.ltb ?a ?c] =>
        destruct (Z.ltb_spec a c); eval_tables; lia
    end.
Qed.

Lemma days_before_year_quotients (q400 q100 q4 q1 : Z) :
  0 <= q100 <= 3 -> 0 <= q4 <= 24 -> 0 <= q1 <= 3 ->
  days_before_year (q400 * 400 + 1 + q100 * 100 + q4 * 4 + q1)
  = q400 * 146097 + q100 * 36524 + q4 * 1461 + q1 * 365.
Proof.
  intros H100 H4 H1. unfold days_before_year. cbv zeta.
  replace (q400 * 400 + 1 + q100 * 100 + q4 * 4 + q1 - 1)
    with (q400 * 400 + q100 * 100 + q4 * 4 + q1) by lia.
  destruct (year_quotients q400 q100 q4 q1 H100 H4 H1) as (-> & -> & ->).
  lia.
Qed.

(** The day number of the date of a day number is that day number. *)
Lemma ymd2ord_ord2ymd (n : Z) :
  ymd2ord (fst (fst (ord2ymd n))) (snd (fst (ord2ymd n))) (snd (ord2ymd n)) = n.
Proof.
  unfold ord2ymd, DI400Y, DI100Y, DI4Y. cbv zeta.
  pose proof (Z.div_mod (n - 1) 146097 ltac:(lia)) as D400.
  pose proof (Z.mod_pos_bound (n - 1) 146097 ltac:(lia)) as B400.
  set (q400 := (n - 1) / 146097) in *. set (r400 := (n - 1) mod 146097) in *.
  pose proof (Z.div_mod r400 36524 ltac:(lia)) as D100.
  pose proof (Z.mod_pos_bound r400 36524 ltac:(lia)) as B100.
  set (q100 := r400 / 36524) in *. set (r100 := r400 mod 36524) in *.
  pose proof (Z.div_mod r100 1461 ltac:(lia)) as D4.
  pose proof (Z.mod_pos_bound r100 1461 ltac:(lia)) as B4.
  set (q4 := r100 / 1461) in *. set (r4 := r100 mod 1461) in *.
  pose proof (Z.div_mod r4 365 ltac:(lia)) as D1.
  pose proof (Z.mod_pos_bound r4 365 ltac:(lia)) as B1.
  set (q1 := r4 / 365) in *. set (r := r4 mod 365) in *.
  clearbody q400 r400 q100 r100 q4 r4 q1 r.
  assert (H100 : 0 <= q100 <= 4) by lia.
  assert (H4 : 0 <= q4 <= 24) by lia.
  assert (H1 : 0 <= q1 <= 4) by lia.
  destruct (Z.eqb_spec q1 4) as [E1|N1]; [|destruct (Z.eqb_spec q100 4) as [E100|N100]];
    cbn [orb fst snd].
  - (* the last day of a leap year *)
    subst q1. assert (r = 0) by lia. assert (q4 <= 23) by lia.
    assert (q100 <= 3) by lia.
    replace (q400 * 400 + 1 + q100 * 100 + q4 * 4 + 4 - 1)
      with (q400 * 400 + 1 + q100 * 100 + q4 * 4 + 3) by lia.
    unfold ymd2ord, days_before_month.
    rewrite days_before_year_quotients, year_leap by lia.
    replace (q4 =? 24) with false by (symmetry; apply Z.eqb_neq; lia).
    cbn. lia.
  - (* the last day of a 400-year cycle *)
    subst q100. assert (q4 = 0) by lia. assert (q1 = 0) by lia. subst q4 q1.
    replace (q400 * 400 + 1 + 4 * 100 + 0 * 4 + 0 - 1)
      with (q400 * 400 + 1 + 3 * 100 + 24 * 4 + 3) by lia.
    unfold ymd2ord, days_before_month.
    rewrite days_before_year_quotients, year_leap by lia.
    cbn. lia.
  - set (leapyear := (q1 =? 3) && (negb (q4 =? 24) || (q100 =? 3))).
    pose proof (month_of_day r leapyear B1) as M. cbv zeta in M.
    set (md := if r <? _ then _ else _) in M.
    assert (Hres :
      (if r <? DAYS_BEFORE_MONTH (Z.shiftr (r + 50) 5)
               + (if (2 <? Z.shiftr (r + 50) 5) && leapyear then 1 else 0)
       then
         (q400 * 400 + 1 + q100 * 100 + q4 * 4 + q1, Z.shiftr (r + 50) 5 - 1,
          r - (DAYS_BEFORE_MONTH (Z.shiftr (r + 50) 5)
               + (if (2 <? Z.shiftr (r + 50) 5) && leapyear then 1 else 0)
               - (DAYS_IN_MONTH (Z.shiftr (r + 50) 5 - 1)
                  + (if (Z.shiftr (r + 50) 5 - 1 =? 2) && leapyear
                     then 1 else 0))) + 1)
       else
         (q400 * 400 + 1 + q100 * 100 + q4 * 4 + q1, Z.shiftr (r + 50) 5,
          r - (DAYS_BEFORE_MONTH (Z.shiftr (r + 50) 5)
               + (if (2 <? Z.shiftr (r + 50) 5) && leapyear then 1 else 0)) + 1))
      = (q400 * 400 + 1 + q100 * 100 + q4 * 4 + q1, fst md, snd md)).
    { subst md. destruct (r <? _); reflexivity. }
    rewrite Hres. cbn [fst snd].
    unfold ymd2ord, days_before_month.
    rewrite days_before_year_quotients, year_leap by lia.
    fold leapyear. destruct M as [M _]. lia.
Qed.

(** The wall clock of a count of seconds shows that count. *)
Lemma seconds_of_of_seconds (s : Z) (dt : datetime) :
  of_seconds s = Ok dt -> seconds_of dt = s.
Proof.
  unfold of_seconds. cbv zeta.
  destruct ((1 <=? s / 86400) && (s / 86400 <=? MAXORDINAL)); [|discriminate].
  pose proof (ymd2ord_ord2ymd (s / 86400)) as R.
  destruct (ord2ymd (s / 86400)) as [[y m] d]. cbn [fst snd] in R.
  intros [= <-]. unfold seconds_of. cbn [year month day hour minute second].
  rewrite R.
  Z.div_mod_to_equations. lia.
Qed.

(** A conversion to another zone keeps the instant. *)
Lemma astimezone_instant (a a' : aware) (tz : tzinfo) :
  astimezone a tz = Ok a' ->
  instant a' = instant a /\ utcoffset a' = tz (instant a).
Proof.
  unfold astimezone. cbv zeta.
  destruct (of_seconds (instant a + tz (instant a))) as [w|e] eqn:O;
    [|discriminate].
  intros [= <-]. apply seconds_of_of_seconds in O.
  unfold instant at 1. cbn [wall utcoffset]. split; [lia | reflexivity].
Qed.

(** ** The time stamp of an event *)

(** C7, on a host in Italy: the event is created at 09:00:00 UTC, that is
    10:00:00+01:00, and its [dtstamp] is 11:00:00+01:00, one hour later
    than the creation time: [datetime.now()] is the wall clock of the host,
    which line 73 labels as UTC before converting it. *)
Theorem dtstamp_on_rome_host :
  exists ev,
    build_event rome_host_env "Europe/Rome" sample_entry 0 = Ok ev
    /\ utc_now rome_host_env 0 = seconds_of (mkDatetime 2024 3 1 9 0 0)
    /\ astimezone (replace_utc (mkDatetime 2024 3 1 9 0 0)) europe_rome
       = Ok (mkAware (mkDatetime 2024 3 1 10 0 0) 3600)
    /\ dtstamp ev = mkAware (mkDatetime 2024 3 1 11 0 0) 3600
    /\ instant (dtstamp ev) = utc_now rome_host_env 0 + 3600.
Proof.
  eexists. split; [vm_compute; reflexivity|].
  vm_compute. repeat split.
Qed.

Lemma rbind_ok {A B} (a : A) (k : A -> result B) : rbind (Ok a) k = k a.
Proof. reflexivity. Qed.

Lemma instant_replace_utc (t : datetime) :
  instant (replace_utc t) = seconds_of t.
Proof. unfold instant, replace_utc. cbn [wall utcoffset]. apply Z.sub_0_r. Qed.

(** Line 71-73's idiom reads the fields of [t] as a time in UTC. *)
Lemma to_local_instant (E : Env) (timezone : string) (t : datetime) (a : aware) :
  to_local E t timezone = Ok a -> instant a = seconds_of t.
Proof.
  unfold to_local.
  destruct (pytz_timezone E timezone) as [tz|?]; [|discriminate].
  rewrite rbind_ok. intros H.
  destruct (astimezone_instant _ _ _ H) as [R _]. rewrite R.
  apply instant_replace_utc.
Qed.

Lemma host_now_seconds (E : Env) (k : nat) (now : datetime) :
  host_now E k = Ok now ->
  seconds_of now = utc_now E k + system_tz E (utc_now E k).
Proof. unfold host_now. apply seconds_of_of_seconds. Qed.

(** On every host, the [dtstamp] of an event denotes the instant of its
    creation moved by the offset of the host's zone: the creation instant
    itself exactly when the host is on UTC at that instant. *)
Lemma dtstamp_instant (E : Env) (timezone : string) (entry : json) (k : nat)
    (ev : Event) :
  build_event E timezone entry k = Ok ev ->
  instant (dtstamp ev) = utc_now E k + system_tz E (utc_now E k).
Proof.
  intros B. apply build_event_fields in B.
  destruct B as (_ & _ & start & end_ & now & _ & _ & _ & Hnow & Hstamp).
  rewrite (to_local_instant _ _ _ _ Hstamp). exact (host_now_seconds _ _ _ Hnow).
Qed.

Lemma dtstamp_on_utc_host (E : Env) (timezone : string) (entry : json) (k : nat)
    (ev : Event) :
  build_event E timezone entry k = Ok ev ->
  (instant (dtstamp ev) = utc_now E k <-> system_tz E (utc_now E k) = 0).
Proof.
  intros B. rewrite (dtstamp_instant E timezone entry k ev B). lia.
Qed.

(** The start and the end of an event denote the instants the timestamps
    of the entry name in UTC. *)
Lemma dtstart_dtend_instants (E : Env) (timezone : string) (entry : json)
    (k : nat) (ev : Event) :
  build_event E timezone entry k = Ok ev ->
  exists start end_,
    rbind (rbind (subscript entry "timeInterval")
                 (fun ti => subscript ti "start")) strptime = Ok start
    /\ rbind (rbind (subscript entry "timeInterval")
                    (fun ti => subscript ti "end")) strptime = Ok end_
    /\ instant (dtstart ev) = seconds_of start
    /\ instant (dtend ev) = seconds_of end_.
Proof.
  unfold build_event, read_entry, stamp_entry.
  destruct (rbind (rbind (subscript entry "timeInterval")
                         (fun ti => subscript ti "start")) strptime)
    as [start|?]; cbn [rbind]; [|discriminate].
  destruct (rbind (rbind (subscript entry "timeInterval")
                         (fun ti => subscript ti "end")) strptime)
    as [end_|?]; cbn [rbind]; [|discriminate].
  destruct (entry_get entry "description" (JStr "Work Entry"))
    as [summary_|?]; cbn [rbind]; [|discriminate].
  unfold to_local.
  destruct (pytz_timezone E timezone) as [tz|?]; cbn [rbind]; [|discriminate].
  destruct (astimezone (replace_utc start) tz) as [ds|?] eqn:Hs; cbn [rbind];
    [|discriminate].
  destruct (astimezone (replace_utc end_) tz) as [de|?] eqn:He; cbn [rbind];
    [|discriminate].
  destruct (host_now E k) as [now|?]; cbn [rbind]; [|discriminate].
  destruct (astimezone (replace_utc now) tz) as [st|?]; cbn [rbind];
    [|discriminate].
  destruct (subscript entry "id") as [uid_|?]; cbn [rbind]; [|discriminate].
  intros [= <-]. cbn [dtstart dtend].
  apply astimezone_instant in Hs, He. destruct Hs as [-> _], He as [-> _].
  exists start, end_. unfold instant, replace_utc. cbn [wall utcoffset].
  repeat split; lia.
Qed.

(** * Further properties of the code *)

(** ** The locator *)

(** X1: the scan of [get_calendar] (lines 43-47) does not depend on the
    case of the letters of the requested name: two requests that are equal
    under case-insensitive comparison find the same calendar. *)
Theorem find_calendar_request_case (calendars : list Calendar) (n n' : string) :
  ci_equal n n' ->
  find_calendar calendars n = find_calendar calendars n'.
Proof.
  intros H. apply lower_ci_equal in H.
  induction calendars as [|c rest IH]; simpl; [reflexivity|].
  rewrite H, IH. reflexivity.
Qed.

Lemma work_WORK_ci_equal : ci_equal "work" "WORK".
Proof. apply lower_ci_equal. reflexivity. Qed.

Lemma find_calendar_request_case_witness :
  find_calendar [mkCalendar "Home" "/calendars/1/"; mkCalendar "Work" "/calendars/2/"]
                "work"
  = find_calendar [mkCalendar "Home" "/calendars/1/"; mkCalendar "Work" "/calendars/2/"]
                  "WORK".
Proof.
  exact (find_calendar_request_case _ "work" "WORK" work_WORK_ci_equal).
Defined.

(** ** The writer, entry by entry *)

(** X2: when lines 67-74 fault for an entry (a missing field, a
    timestamp that does not parse or convert, an unknown zone), the loop
    body ends with that fault before the save: nothing is sent to the
    calendar and nothing is logged for the entry. *)
Theorem unbuilt_entry_leaves_no_trace (E : Env) (calendar : Calendar)
    (timezone : string) (entry : json) (w : World) (e : exn) :
  build_event E timezone entry (clock_reads w) = Raise e ->
  fst (add_entry E calendar timezone entry w) = Raise e
  /\ log (snd (add_entry E calendar timezone entry w)) = log w
  /\ written (snd (add_entry E calendar timezone entry w)) = written w
  /\ attempts (snd (add_entry E calendar timezone entry w)) = attempts w.
Proof.
  intros B.
  destruct (add_entry_not_built E calendar timezone entry w e B)
    as (w' & -> & Hl & Hw & Ha).
  simpl. auto.
Qed.

Lemma no_id_entry_not_built :
  build_event sample_env "Europe/Rome" no_id_entry (clock_reads empty_world)
  = Raise (KeyError "id").
Proof. vm_compute. reflexivity. Qed.

Lemma unbuilt_entry_leaves_no_trace_witness :
  fst (add_entry sample_env work_calendar "Europe/Rome" no_id_entry empty_world)
  = Raise (KeyError "id")
  /\ log (snd (add_entry sample_env work_calendar "Europe/Rome" no_id_entry
                         empty_world)) = log empty_world
  /\ written (snd (add_entry sample_env work_calendar "Europe/Rome" no_id_entry
                             empty_world)) = written empty_world
  /\ attempts (snd (add_entry sample_env work_calendar "Europe/Rome" no_id_entry
                              empty_world)) = attempts empty_world.
Proof.
  exact (unbuilt_entry_leaves_no_trace sample_env work_calendar "Europe/Rome"
           no_id_entry empty_world (KeyError "id") no_id_entry_not_built).
Defined.

(** What a built event says of its entry, field by field. *)
Lemma build_event_inv (E : Env) (timezone : string) (entry : json) (k : nat)
    (ev : Event) :
  build_event E timezone entry k = Ok ev ->
  exists start end_ now,
    entry_start entry = Ok start
    /\ entry_end entry = Ok end_
    /\ entry_get entry "description" (JStr "Work Entry") = Ok (summary ev)
    /\ to_local E start timezone = Ok (dtstart ev)
    /\ to_local E end_ timezone = Ok (dtend ev)
    /\ host_now E k = Ok now
    /\ to_local E now timezone = Ok (dtstamp ev)
    /\ subscript entry "id" = Ok (uid ev).
Proof.
  unfold build_event, read_entry, stamp_entry.
  fold (entry_start entry). fold (entry_end entry).
  destruct (entry_start entry) as [start|?]; [|discriminate]. rewrite rbind_ok.
  destruct (entry_end entry) as [end_|?]; [|discriminate]. rewrite rbind_ok.
  destruct (entry_get entry "description" (JStr "Work Entry"))
    as [summary_|?]; [|discriminate]. rewrite rbind_ok.
  destruct (to_local E start timezone) as [dtstart_|?] eqn:Ls; [|discriminate].
  rewrite rbind_ok.
  destruct (to_local E end_ timezone) as [dtend_|?] eqn:Le; [|discriminate].
  rewrite !rbind_ok.
  destruct (host_now E k) as [now|?]; [|discriminate]. rewrite rbind_ok.
  destruct (to_local E now timezone) as [dtstamp_|?] eqn:Ln; [|discriminate].
  rewrite rbind_ok.
  destruct (subscript entry "id") as [uid_|?]; [|discriminate].
  rewrite rbind_ok. intros [= <-]. exists start, end_, now.
  cbn [summary dtstart dtend dtstamp uid]. repeat split; assumption || reflexivity.
Qed.

Lemma to_local_zone (E : Env) (timezone : string) (tz : tzinfo) (t : datetime)
    (a : aware) :
  timezone_db E timezone = Some tz ->
  to_local E t timezone = Ok a ->
  instant a = seconds_of t /\ utcoffset a = tz (seconds_of t).
Proof.
  intros Hdb. unfold to_local, pytz_timezone. rewrite Hdb, rbind_ok. intros H.
  destruct (astimezone_instant _ _ _ H) as [R O].
  rewrite R, O, instant_replace_utc. split; reflexivity.
Qed.

(** X3: the start and the end of every event (lines 67-72) denote the
    instants that the timestamps of the entry name in UTC, and carry the
    offset the configured zone has at those instants. *)
Theorem event_times_keep_instants (E : Env) (timezone : string) (tz : tzinfo)
    (entry : json) (k : nat) (ev : Event) :
  timezone_db E timezone = Some tz ->
  build_event E timezone entry k = Ok ev ->
  exists start end_,
    entry_start entry = Ok start
    /\ entry_end entry = Ok end_
    /\ instant (dtstart ev) = seconds_of start
    /\ utcoffset (dtstart ev) = tz (seconds_of start)
    /\ instant (dtend ev) = seconds_of end_
    /\ utcoffset (dtend ev) = tz (seconds_of end_).
Proof.
  intros Hdb B. apply build_event_inv in B.
  destruct B as (start & end_ & now & Hs & He & _ & Ls & Le & _).
  destruct (to_local_zone E timezone tz start _ Hdb Ls) as [Is Os].
  destruct (to_local_zone E timezone tz end_ _ Hdb Le) as [Ie Oe].
  exists start, end_. repeat split; assumption.
Qed.

Lemma sample_entry_built :
  build_event sample_env "Europe/Rome" sample_entry (clock_reads empty_world)
  = Ok (mkEvent (JStr "Coding")
                (mkAware (mkDatetime 2024 3 1 10 0 0) 3600)
                (mkAware (mkDatetime 2024 3 1 11 30 0) 3600)
                (mkAware (mkDatetime 2024 3 2 9 0 0) 3600) (JStr "abc123")).
Proof. vm_compute. reflexivity. Qed.

Lemma event_times_keep_instants_witness :
  let ev := mkEvent (JStr "Coding")
                    (mkAware (mkDatetime 2024 3 1 10 0 0) 3600)
                    (mkAware (mkDatetime 2024 3 1 11 30 0) 3600)
                    (mkAware (mkDatetime 2024 3 2 9 0 0) 3600) (JStr "abc123") in
  exists start end_,
    entry_start sample_entry = Ok start
    /\ entry_end sample_entry = Ok end_
    /\ instant (dtstart ev) = seconds_of start
    /\ utcoffset (dtstart ev) = europe_rome (seconds_of start)
    /\ instant (dtend ev) = seconds_of end_
    /\ utcoffset (dtend ev) = europe_rome (seconds_of end_).
Proof.
  exact (event_times_keep_instants sample_env "Europe/Rome" europe_rome
           sample_entry (clock_reads empty_world) _ eq_refl sample_entry_built).
Defined.

(** X4: the [dtstamp] of every event (line 73) denotes the instant of its
    creation moved by the offset of the host's zone, since the wall clock
    of the host is read as a time in UTC; it is the instant of creation
    exactly when the host is at offset zero. *)
Theorem dtstamp_shifted_by_host_offset (E : Env) (timezone : string)
    (entry : json) (k : nat) (ev : Event) :
  build_event E timezone entry k = Ok ev ->
  instant (dtstamp ev) = utc_now E k + system_tz E (utc_now E k)
  /\ (instant (dtstamp ev) = utc_now E k <-> system_tz E (utc_now E k) = 0).
Proof.
  intros B. apply build_event_inv in B.
  destruct B as (start & end_ & now & _ & _ & _ & _ & _ & Hnow & Hstamp & _).
  rewrite (to_local_instant _ _ _ _ Hstamp), (host_now_seconds _ _ _ Hnow).
  split; [reflexivity | lia].
Qed.

Lemma dtstamp_shifted_by_host_offset_witness :
  let ev := mkEvent (JStr "Coding")
                    (mkAware (mkDatetime 2024 3 1 10 0 0) 3600)
                    (mkAware (mkDatetime 2024 3 1 11 30 0) 3600)
                    (mkAware (mkDatetime 2024 3 2 9 0 0) 3600) (JStr "abc123") in
  instant (dtstamp ev)
  = utc_now sample_env (clock_reads empty_world)
    + system_tz sample_env (utc_now sample_env (clock_reads empty_world))
  /\ (instant (dtstamp ev) = utc_now sample_env (clock_reads empty_world)
      <-> system_tz sample_env (utc_now sample_env (clock_reads empty_world)) = 0).
Proof.
  exact (dtstamp_shifted_by_host_offset sample_env "Europe/Rome" sample_entry
           (clock_reads empty_world) _ sample_entry_built).
Defined.

(** X5: what an event says of its entry does not depend on when it is
    built: two events built from one entry, at any two clock reads, have the
    same summary, start, end and uid, and differ at most in [dtstamp]. *)
Theorem event_content_fixed_by_entry (E : Env) (timezone : string)
    (entry : json) (k k' : nat) (ev ev' : Event) :
  build_event E timezone entry k = Ok ev ->
  build_event E timezone entry k' = Ok ev' ->
  summary ev = summary ev' /\ dtstart ev = dtstart ev'
  /\ dtend ev = dtend ev' /\ uid ev = uid ev'.
Proof.
  intros B B'. apply build_event_inv in B, B'.
  destruct B as (s1 & e1 & n1 & Hs & He & Hsum & Ls & Le & _ & _ & Hid).
  destruct B' as (s2 & e2 & n2 & Hs' & He' & Hsum' & Ls' & Le' & _ & _ & Hid').
  rewrite Hs in Hs'. injection Hs' as <-.
  rewrite He in He'. injection He' as <-.
  rewrite Hsum in Hsum'. rewrite Ls in Ls'. rewrite Le in Le'.
  rewrite Hid in Hid'.
  repeat split; congruence.
Qed.

Lemma sample_entry_built_later :
  build_event sample_env "Europe/Rome" sample_entry 5
  = Ok (mkEvent (JStr "Coding")
                (mkAware (mkDatetime 2024 3 1 10 0 0) 3600)
                (mkAware (mkDatetime 2024 3 1 11 30 0) 3600)
                (mkAware (mkDatetime 2024 3 2 9 0 5) 3600) (JStr "abc123")).
Proof. vm_compute. reflexivity. Qed.

Lemma event_content_fixed_by_entry_witness :
  let ev := mkEvent (JStr "Coding")
                    (mkAware (mkDatetime 2024 3 1 10 0 0) 3600)
                    (mkAware (mkDatetime 2024 3 1 11 30 0) 3600)
                    (mkAware (mkDatetime 2024 3 2 9 0 0) 3600) (JStr "abc123") in
  let ev' := mkEvent (JStr "Coding")
                     (mkAware (mkDatetime 2024 3 1 10 0 0) 3600)
                     (mkAware (mkDatetime 2024 3 1 11 30 0) 3600)
                     (mkAware (mkDatetime 2024 3 2 9 0 5) 3600) (JStr "abc123") in
  summary ev = summary ev' /\ dtstart ev = dtstart ev'
  /\ dtend ev = dtend ev' /\ uid ev = uid ev'.
Proof.
  exact (event_content_fixed_by_entry sample_env "Europe/Rome" sample_entry
           (clock_reads empty_world) 5 _ _ sample_entry_built
           sample_entry_built_later).
Defined.

(** ** The writer, over the whole sequence *)

Lemma read_entry_start (E : Env) (timezone : string) (entry : json)
    (r : datetime * json * aware * aware) :
  read_entry E timezone entry = Ok r ->
  entry_start entry = Ok (fst (fst (fst r))).
Proof.
  unfold read_entry. fold (entry_start entry). fold (entry_end entry).
  destruct (entry_start entry) as [start|?]; [|discriminate]. rewrite rbind_ok.
  destruct (entry_end entry) as [end_|?]; [|discriminate]. rewrite rbind_ok.
  destruct (entry_get entry "description" (JStr "Work Entry"))
    as [summary_|?]; [|discriminate]. rewrite rbind_ok.
  destruct (to_local E start timezone) as [dtstart_|?]; [|discriminate].
  rewrite rbind_ok.
  destruct (to_local E end_ timezone) as [dtend_|?]; [|discriminate].
  rewrite rbind_ok. intros [= <-]. reflexivity.
Qed.

Lemma add_entry_outcome (E : Env) (calendar : Calendar) (timezone : string)
    (entry : json) (w : World) :
  step_outcome E calendar timezone entry w
    (fst (add_entry E calendar timezone entry w))
    (snd (add_entry E calendar timezone entry w)).
Proof.
  rewrite add_entry_run.
  destruct (read_entry E timezone entry) as [r|e] eqn:R.
  2:{ apply step_unbuilt; reflexivity. }
  destruct (stamp_entry E timezone entry (clock_reads w) r) as [ev|e].
  2:{ apply step_unbuilt; reflexivity. }
  destruct (save_outcome E _ calendar ev) as [e|].
  { apply (step_refused _ _ _ _ _ e ev); reflexivity. }
  destruct (subscript entry "description") as [d|e] eqn:D.
  - eapply (step_done _ _ _ _ _ ev); try reflexivity.
    exists (fst (fst (fst r))), d. repeat split; [|assumption].
    eapply read_entry_start; eassumption.
  - apply (step_unlogged _ _ _ _ _ e ev); reflexivity.
Qed.

(** What a run of the loop leaves, whatever its result. *)
Lemma for_each_trace (E : Env) (calendar : Calendar) (timezone : string)
    (entries : list json) (w : World) :
  let r := fst (for_each entries (add_entry E calendar timezone) w) in
  let w' := snd (for_each entries (add_entry E calendar timezone) w) in
  exists evs saved lines,
    attempts w' = (attempts w ++ evs)%list
    /\ written w' = (written w ++ saved)%list
    /\ log w' = (log w ++ lines)%list
    /\ (saved = evs \/ saved = removelast evs)
    /\ (List.length evs <= List.length entries)%nat
    /\ (List.length lines <= List.length saved)%nat
    /\ Forall (fun l => line_level l = INFO) lines
    /\ (r = Ok tt ->
        saved = evs /\ Forall2 (added_line calendar) entries lines).
Proof.
  revert w. induction entries as [|x rest IH]; intros w; cbn zeta.
  - exists [], [], []. simpl. rewrite !app_nil_r.
    repeat split; auto; constructor.
  - simpl. unfold bind.
    pose proof (add_entry_outcome E calendar timezone x w) as O.
    destruct (add_entry E calendar timezone x w) as [r1 w1]. simpl in O.
    destruct O as [e w1 Hl Hw Ha | e ev w1 Hl Hw Ha | e ev w1 Hl Hw Ha
                  | ev l w1 Hline Hl Hw Ha].
    + exists [], [], []. simpl. rewrite !app_nil_r.
      repeat split; auto; try lia; discriminate.
    + exists [ev], [], []. simpl. rewrite !app_nil_r.
      repeat split; auto; try lia; discriminate.
    + exists [ev], [ev], []. simpl. rewrite !app_nil_r.
      repeat split; auto; try lia; discriminate.
    + specialize (IH w1). cbn zeta in IH.
      destruct (for_each rest (add_entry E calendar timezone) w1) as [r2 w2].
      simpl in IH |- *.
      destruct IH as (evs & saved & lines & Ha' & Hw' & Hl' & Hs & Le & Ll & Fi & Hok).
      exists (ev :: evs), (ev :: saved), (l :: lines).
      rewrite Ha', Hw', Hl', Ha, Hw, Hl, <- !app_assoc. simpl.
      repeat split; try lia.
      * destruct Hs as [-> | ->]; [left; reflexivity|].
        destruct evs as [|b evs]; [left; reflexivity|].
        right. reflexivity.
      * constructor; [|assumption].
        destruct Hline as (start & d & _ & _ & ->). reflexivity.
      * destruct (Hok H) as [-> _]. reflexivity.
      * constructor; [assumption|]. now destruct (Hok H).
Qed.

(** The writer is the loop over what the value iterates to. *)
Lemma writer_as_loop (E : Env) (calendar : Calendar) (timezone : string)
    (time_entries : json) (w : World) :
  add_entries_to_calendar E calendar time_entries timezone w =
  match py_iter time_entries with
  | Ok entries => for_each entries (add_entry E calendar timezone) w
  | Raise e => (Raise e, w)
  end.
Proof.
  unfold add_entries_to_calendar, bind, lift.
  destruct (py_iter time_entries); reflexivity.
Qed.

(** X6: whatever the writer is given and however it ends (lines 50-76),
    it only appends: the saves it attempts are at most one per item, the
    events written are the attempted ones in order, all of them or all but
    the last, and it logs at most one line per written event, never an
    error line. *)
Theorem writer_only_appends (E : Env) (calendar : Calendar) (timezone : string)
    (time_entries : json) (w : World) :
  let w' := snd (add_entries_to_calendar E calendar time_entries timezone w) in
  exists evs saved lines,
    attempts w' = (attempts w ++ evs)%list
    /\ written w' = (written w ++ saved)%list
    /\ log w' = (log w ++ lines)%list
    /\ (saved = evs \/ saved = removelast evs)
    /\ (List.length lines <= List.length saved)%nat
    /\ Forall (fun l => line_level l = INFO) lines
    /\ (forall entries, py_iter time_entries = Ok entries ->
        (List.length evs <= List.length entries)%nat).
Proof.
  unfold add_entries_to_calendar, bind, lift. cbn zeta.
  destruct (py_iter time_entries) as [entries|e].
  - destruct (for_each_trace E calendar timezone entries w)
      as (evs & saved & lines & Ha & Hw & Hl & Hs & Le & Ll & Fi & _).
    exists evs, saved, lines. repeat split; try assumption.
    intros entries' [= <-]. exact Le.
  - exists [], [], []. simpl. rewrite !app_nil_r.
    repeat split; auto. discriminate.
Qed.

(** X7: an answer that is not a list (line 66): null, a boolean or a
    number is not iterable, and the items of a text or of a mapping are
    texts, so the writer leaves the world as it is; it returns normally
    only for the empty text and the empty mapping. *)
Theorem non_list_response_untouched (E : Env) (calendar : Calendar)
    (timezone : string) (time_entries : json) (w : World) :
  (forall items, time_entries <> JList items) ->
  snd (add_entries_to_calendar E calendar time_entries timezone w) = w
  /\ fst (add_entries_to_calendar E calendar time_entries timezone w)
     = if match time_entries with
          | JStr EmptyString | JDict [] => true
          | _ => false
          end
       then Ok tt else Raise TypeError.
Proof.
  intros Hnot. unfold add_entries_to_calendar, lift.
  destruct time_entries as [| b | n | m x | s | items | fields];
    try (split; reflexivity).
  - destruct s as [|c s]; [split; reflexivity|].
    unfold bind at 1. cbn [py_iter chars for_each]. unfold bind.
    rewrite add_entry_run. split; reflexivity.
  - exfalso. exact (Hnot items eq_refl).
  - destruct fields as [|[k v] fields]; [split; reflexivity|].
    unfold bind at 1. cbn [py_iter map for_each fst]. unfold bind.
    rewrite add_entry_run. split; reflexivity.
Qed.

Lemma non_list_response_untouched_witness :
  snd (add_entries_to_calendar sample_env work_calendar
         (JDict [("message", JStr "Api key does not exist"); ("code", JInt 4003)])
         "Europe/Rome" empty_world) = empty_world
  /\ fst (add_entries_to_calendar sample_env work_calendar
            (JDict [("message", JStr "Api key does not exist"); ("code", JInt 4003)])
            "Europe/Rome" empty_world)
     = Raise TypeError.
Proof.
  refine (non_list_response_untouched sample_env work_calendar "Europe/Rome"
            (JDict [("message", JStr "Api key does not exist"); ("code", JInt 4003)])
            empty_world _).
  intros items; discriminate.
Defined.

Lemma build_event_unknown_zone (E : Env) (timezone : string) (entry : json)
    (k : nat) :
  timezone_db E timezone = None ->
  exists e, build_event E timezone entry k = Raise e.
Proof.
  intros Hdb. unfold build_event, read_entry.
  destruct (rbind (rbind (subscript entry "timeInterval")
                         (fun ti => subscript ti "start")) strptime)
    as [start|e]; [rewrite rbind_ok | exists e; reflexivity].
  destruct (rbind (rbind (subscript entry "timeInterval")
                         (fun ti => subscript ti "end")) strptime)
    as [end_|e]; [rewrite rbind_ok | exists e; reflexivity].
  destruct (entry_get entry "description" (JStr "Work Entry"))
    as [summary_|e]; [rewrite rbind_ok | exists e; reflexivity].
  unfold to_local at 1, pytz_timezone. rewrite Hdb.
  eexists. reflexivity.
Qed.

(** X8: with a zone name that [pytz] does not know (lines 71-73), no
    entry gets as far as the save: whatever the writer is given, nothing is
    attempted, written or logged, and a list with at least one entry ends
    in a fault. *)
Theorem unknown_zone_never_saves (E : Env) (calendar : Calendar)
    (timezone : string) (time_entries : json) (w : World) :
  timezone_db E timezone = None ->
  let r := fst (add_entries_to_calendar E calendar time_entries timezone w) in
  let w' := snd (add_entries_to_calendar E calendar time_entries timezone w) in
  attempts w' = attempts w /\ written w' = written w /\ log w' = log w
  /\ (forall x rest, time_entries = JList (x :: rest) -> r <> Ok tt).
Proof.
  intros Hdb. unfold add_entries_to_calendar, bind, lift. cbn zeta.
  destruct (py_iter time_entries) as [entries|e] eqn:I.
  2:{ simpl. repeat split. intros x rest ->. discriminate. }
  destruct entries as [|x rest].
  { simpl. repeat split. intros x rest ->. discriminate. }
  simpl. unfold bind.
  destruct (build_event_unknown_zone E timezone x (clock_reads w) Hdb) as [e B].
  destruct (add_entry_not_built E calendar timezone x w e B)
    as (w1 & -> & Hl & Hw & Ha).
  simpl. repeat split; try assumption. discriminate.
Qed.

Lemma unknown_zone_never_saves_witness :
  let r := fst (add_entries_to_calendar sample_env work_calendar
                  (JList [sample_entry; second_entry]) "Europe/Roma" empty_world) in
  let w' := snd (add_entries_to_calendar sample_env work_calendar
                   (JList [sample_entry; second_entry]) "Europe/Roma" empty_world) in
  attempts w' = attempts empty_world /\ written w' = written empty_world
  /\ log w' = log empty_world
  /\ (forall x rest, JList [sample_entry; second_entry] = JList (x :: rest) ->
      r <> Ok tt).
Proof.
  exact (unknown_zone_never_saves sample_env work_calendar "Europe/Roma"
           (JList [sample_entry; second_entry]) empty_world eq_refl).
Defined.

(** X9: entries given in two batches (lines 66-76): the writer on a list
    followed by another does what it does on the first and then, unless
    that ended in a fault, what it does on the second from the world the
    first left. *)
Theorem writer_batches_compose (E : Env) (calendar : Calendar)
    (timezone : string) (first second : list json) (w : World) :
  add_entries_to_calendar E calendar (JList (first ++ second)) timezone w =
  match add_entries_to_calendar E calendar (JList first) timezone w with
  | (Ok _, w1) => add_entries_to_calendar E calendar (JList second) timezone w1
  | (Raise e, w1) => (Raise e, w1)
  end.
Proof.
  unfold add_entries_to_calendar, bind, lift. simpl. apply for_each_app.
Qed.

(** X10: when every entry builds and has a description and every save
    succeeds (lines 66-76), the log gains exactly one line per entry, in the
    order of the entries, each an "Added entry" line with the description of
    the entry, the date of its start as the timestamp gives it (in UTC,
    day-month-year) and the name of the calendar. *)
Theorem every_entry_logged (E : Env) (calendar : Calendar) (timezone : string)
    (entries : list json) (w : World) :
  (forall i e, nth_error entries i = Some e ->
     exists ev d, build_event E timezone e (clock_reads w + i)%nat = Ok ev
                  /\ subscript e "description" = Ok d) ->
  (forall k ev, save_outcome E k calendar ev = None) ->
  exists w' lines,
    add_entries_to_calendar E calendar (JList entries) timezone w = (Ok tt, w')
    /\ log w' = (log w ++ lines)%list
    /\ Forall2 (added_line calendar) entries lines.
Proof.
  intros Hent Hsave.
  destruct (for_each_all_saved E calendar timezone entries w Hent Hsave)
    as [w' Hrun].
  pose proof (for_each_trace E calendar timezone entries w) as T.
  cbn zeta in T. rewrite Hrun in T. simpl in T.
  destruct T as (evs & saved & lines & _ & _ & Hl & _ & _ & _ & _ & Hok).
  destruct (Hok eq_refl) as [_ F].
  exists w', lines. repeat split; assumption.
Qed.

Lemma every_entry_logged_witness :
  exists w' lines,
    add_entries_to_calendar sample_env work_calendar
      (JList [sample_entry; second_entry]) "Europe/Rome" empty_world
    = (Ok tt, w')
    /\ log w' = (log empty_world ++ lines)%list
    /\ Forall2 (added_line work_calendar) [sample_entry; second_entry] lines.
Proof.
  exact (every_entry_logged sample_env work_calendar "Europe/Rome"
           [sample_entry; second_entry] empty_world sample_entries_ready
           (fun _ _ => eq_refl)).
Defined.

(** ** The run of [main], case by case *)

Lemma main_cases (E : Env) (w : World) :
  main E w =
  match host_now E (clock_reads w) with
  | Raise e => (Raise e, tick w)
  | Ok now =>
      match fetch_time_entries E START_DATE (strftime_iso now) (tick w) with
      | (Ok v, w1) => after_fetch E (strftime_iso now) v w1
      | (Raise e, w1) => (Raise e, w1)
      end
  end.
Proof.
  destruct (host_now E (clock_reads w)) as [now|e] eqn:Hnow.
  - apply main_run. exact Hnow.
  - unfold main, bind at 1. unfold datetime_now. rewrite Hnow. reflexivity.
Qed.

Lemma after_fetch_cases (E : Env) (end_date : string) (v : json) (w : World) :
  after_fetch E end_date v w =
  match principal_calendars E with
  | Raise e => (Raise e, w)
  | Ok calendars =>
      match find_calendar calendars "work" with
      | None => (Ok tt, logged (mkLine ERROR CalendarNotFound) w)
      | Some c =>
          match add_entries_to_calendar E c v "Europe/Rome" w with
          | (Ok _, w2) =>
              (Ok tt,
               logged (mkLine INFO (EntriesAdded (take 10 START_DATE)
                                                 (take 10 end_date) "work")) w2)
          | (Raise e, w2) => (Raise e, w2)
          end
      end
  end.
Proof.
  unfold after_fetch, get_calendar, bind, lift, ret.
  destruct (principal_calendars E) as [calendars|e]; [|reflexivity].
  destruct (find_calendar calendars "work") as [c|]; [|reflexivity].
  destruct (add_entries_to_calendar E c v "Europe/Rome" w) as [[[]|e] w2];
    reflexivity.
Qed.

(** X11: a run of [main] in which everything goes through (lines 79-93):
    the request is answered with a list of entries, a calendar named "work"
    in any case of letters is found, every entry builds and has a
    description and every save succeeds.  Then [main] returns normally, one
    event per entry is written to that calendar with the entry's [id] as
    [uid], and the log gains the line of the fetcher, one line per entry and
    the closing summary. *)
Theorem main_syncs_every_entry (E : Env) (w : World) (now : datetime)
    (response : Response) (entries : list json) (calendars : list Calendar)
    (c : Calendar) :
  host_now E (clock_reads w) = Ok now ->
  http_get E (time_entries_url E START_DATE (strftime_iso now))
           (getenv E "API_KEY") = Ok response ->
  body response = Some (JList entries) ->
  principal_calendars E = Ok calendars ->
  find_calendar calendars "work" = Some c ->
  (forall i e, nth_error entries i = Some e ->
     exists ev d,
       build_event E "Europe/Rome" e (S (clock_reads w) + i)%nat = Ok ev
       /\ subscript e "description" = Ok d) ->
  (forall k ev, save_outcome E k c ev = None) ->
  exists w' evs lines,
    main E w = (Ok tt, w')
    /\ written w' = (written w ++ evs)%list
    /\ Forall2 (fun e ev => subscript e "id" = Ok (uid ev)) entries evs
    /\ Forall2 (added_line c) entries lines
    /\ log w' = (log w
                 ++ [mkLine INFO (Fetching (take 10 START_DATE)
                                           (take 10 (strftime_iso now)))]
                 ++ lines
                 ++ [mkLine INFO (EntriesAdded (take 10 START_DATE)
                                    (take 10 (strftime_iso now)) "work")])%list.
Proof.
  intros Hnow Hget Hbody Hcals Hfind Hent Hsave.
  set (w1 := logged (mkLine INFO (Fetching (take 10 START_DATE)
                                    (take 10 (strftime_iso now)))) (tick w)).
  assert (Hent1 : forall i e, nth_error entries i = Some e ->
            exists ev d,
              build_event E "Europe/Rome" e (clock_reads w1 + i)%nat = Ok ev
              /\ subscript e "description" = Ok d) by exact Hent.
  destruct (for_each_all_saved E c "Europe/Rome" entries w1 Hent1 Hsave)
    as [w2 Hrun].
  destruct (for_each_ok_attempts E c "Europe/Rome" entries w1 w2 Hrun)
    as (evs & _ & Hw & F).
  pose proof (for_each_trace E c "Europe/Rome" entries w1) as T.
  cbn zeta in T. rewrite Hrun in T. simpl in T.
  destruct T as (evs' & saved & lines & _ & _ & Hl & _ & _ & _ & _ & Hok).
  destruct (Hok eq_refl) as [_ FL].
  assert (Hwriter : add_entries_to_calendar E c (JList entries) "Europe/Rome" w1
                    = (Ok tt, w2)).
  { unfold add_entries_to_calendar, bind, lift. simpl. exact Hrun. }
  eexists. exists evs, lines.
  rewrite main_cases, Hnow, fetch_run, Hget, Hbody.
  fold w1. rewrite after_fetch_cases, Hcals, Hfind, Hwriter.
  split; [reflexivity|]. simpl.
  rewrite Hw, Hl. unfold w1. simpl.
  repeat split; try assumption.
  rewrite <- !app_assoc. reflexivity.
Qed.

Lemma sample_entry_ready_in_main (i : nat) (e : json) :
  nth_error [sample_entry] i = Some e ->
  exists ev d,
    build_event sample_env "Europe/Rome" e (S (clock_reads empty_world) + i)%nat
    = Ok ev
    /\ subscript e "description" = Ok d.
Proof.
  destruct i as [|i]; simpl.
  - intros [= <-]. eexists. eexists. split; vm_compute; reflexivity.
  - destruct i; discriminate.
Qed.

Lemma sample_host_now :
  host_now sample_env (clock_reads empty_world) = Ok (mkDatetime 2024 3 2 8 0 0).
Proof. vm_compute. reflexivity. Qed.

Lemma main_syncs_every_entry_witness :
  exists w' evs lines,
    main sample_env empty_world = (Ok tt, w')
    /\ written w' = (written empty_world ++ evs)%list
    /\ Forall2 (fun e ev => subscript e "id" = Ok (uid ev)) [sample_entry] evs
    /\ Forall2 (added_line work_calendar) [sample_entry] lines
    /\ log w' = (log empty_world
                 ++ [mkLine INFO (Fetching (take 10 START_DATE)
                        (take 10 (strftime_iso (mkDatetime 2024 3 2 8 0 0))))]
                 ++ lines
                 ++ [mkLine INFO (EntriesAdded (take 10 START_DATE)
                        (take 10 (strftime_iso (mkDatetime 2024 3 2 8 0 0)))
                        "work")])%list.
Proof.
  exact (main_syncs_every_entry sample_env empty_world
           (mkDatetime 2024 3 2 8 0 0)
           (mkResponse 200 (Some (JList [sample_entry]))) [sample_entry]
           [mkCalendar "Home" "/calendars/1/"; mkCalendar "Work" "/calendars/2/"]
           work_calendar sample_host_now eq_refl eq_refl eq_refl eq_refl
           sample_entry_ready_in_main (fun _ _ => eq_refl)).
Defined.

(** X12: a fault of the CalDAV server while the calendars are listed
    (lines 40-42) ends [main] with that fault after the entries have been
    fetched: the line of the fetcher is in the log, and nothing is attempted
    or written. *)
Theorem locator_fault_ends_main (E : Env) (w : World) (now : datetime)
    (response : Response) (v : json) (e : exn) :
  host_now E (clock_reads w) = Ok now ->
  http_get E (time_entries_url E START_DATE (strftime_iso now))
           (getenv E "API_KEY") = Ok response ->
  body response = Some v ->
  principal_calendars E = Raise e ->
  main E w
  = (Raise e,
     logged (mkLine INFO (Fetching (take 10 START_DATE)
                            (take 10 (strftime_iso now)))) (tick w)).
Proof.
  intros Hnow Hget Hbody Hcals.
  rewrite main_cases, Hnow, fetch_run, Hget, Hbody, after_fetch_cases, Hcals.
  reflexivity.
Qed.

Lemma locator_fault_ends_main_witness :
  main dav_down_env empty_world
  = (Raise DAVError,
     logged (mkLine INFO (Fetching (take 10 START_DATE)
                            (take 10 (strftime_iso (mkDatetime 2024 3 2 8 0 0)))))
            (tick empty_world)).
Proof.
  assert (Hnow : host_now dav_down_env (clock_reads empty_world)
                 = Ok (mkDatetime 2024 3 2 8 0 0)) by (vm_compute; reflexivity).
  exact (locator_fault_ends_main dav_down_env empty_world
           (mkDatetime 2024 3 2 8 0 0)
           (mkResponse 200 (Some (JList [sample_entry])))
           (JList [sample_entry]) DAVError Hnow eq_refl eq_refl eq_refl).
Defined.

Lemma info_lines_no_error (lines : list log_line) :
  Forall (fun l => line_level l = INFO) lines ->
  filter is_error lines = [].
Proof.
  induction 1 as [|l lines Hl _ IH]; simpl; [reflexivity|].
  unfold is_error. rewrite Hl. exact IH.
Qed.

(** X13: whatever the surroundings answer and however it ends, [main]
    (lines 79-95) only appends: the events written are the attempted ones in
    order, all of them or all but the last, at most one error line is
    logged, and when an error line is logged no save was attempted. *)
Theorem main_only_appends (E : Env) (w : World) :
  let w' := snd (main E w) in
  exists evs saved lines,
    attempts w' = (attempts w ++ evs)%list
    /\ written w' = (written w ++ saved)%list
    /\ log w' = (log w ++ lines)%list
    /\ (saved = evs \/ saved = removelast evs)
    /\ (List.length (filter is_error lines) <= 1)%nat
    /\ (filter is_error lines <> [] -> evs = []).
Proof.
  cbn zeta. rewrite main_cases.
  destruct (host_now E (clock_reads w)) as [now|e].
  2:{ exists [], [], []. simpl. rewrite !app_nil_r. repeat split; auto. }
  rewrite fetch_run.
  destruct (http_get E _ _) as [response|e].
  2:{ exists [], [], []. simpl. rewrite !app_nil_r. repeat split; auto. }
  set (fetching := mkLine INFO (Fetching (take 10 START_DATE)
                                  (take 10 (strftime_iso now)))).
  destruct (body response) as [v|].
  2:{ exists [], [], [fetching]. simpl. rewrite !app_nil_r.
      repeat split; auto; intros H; now elim H. }
  rewrite after_fetch_cases.
  destruct (principal_calendars E) as [calendars|e].
  2:{ exists [], [], [fetching]. simpl. rewrite !app_nil_r.
      repeat split; auto; intros H; now elim H. }
  destruct (find_calendar calendars "work") as [c|].
  2:{ exists [], [], [fetching; mkLine ERROR CalendarNotFound]. simpl.
      rewrite !app_nil_r, <- app_assoc. repeat split; auto. }
  assert (T : exists evs saved lines,
    attempts (snd (add_entries_to_calendar E c v "Europe/Rome"
                     (logged fetching (tick w))))
    = (attempts (logged fetching (tick w)) ++ evs)%list
    /\ written (snd (add_entries_to_calendar E c v "Europe/Rome"
                       (logged fetching (tick w))))
       = (written (logged fetching (tick w)) ++ saved)%list
    /\ log (snd (add_entries_to_calendar E c v "Europe/Rome"
                   (logged fetching (tick w))))
       = (log (logged fetching (tick w)) ++ lines)%list
    /\ (saved = evs \/ saved = removelast evs)
    /\ Forall (fun l => line_level l = INFO) lines).
  { rewrite writer_as_loop. destruct (py_iter v) as [entries|e].
    - destruct (for_each_trace E c "Europe/Rome" entries
                  (logged fetching (tick w)))
        as (evs & saved & lines & Ha & Hw & Hl & Hs & _ & _ & Fi & _).
      exists evs, saved, lines. repeat split; assumption.
    - exists [], [], []. simpl. rewrite !app_nil_r. repeat split; auto. }
  destruct (add_entries_to_calendar E c v "Europe/Rome" (logged fetching (tick w)))
    as [r w2].
  simpl in T.
  destruct T as (evs & saved & lines & Ha & Hw & Hl & Hs & Fi).
  pose proof (info_lines_no_error lines Fi) as NoErr.
  destruct r as [[]|e]; simpl.
  - exists evs, saved,
      ([fetching] ++ lines
       ++ [mkLine INFO (EntriesAdded (take 10 START_DATE)
                          (take 10 (strftime_iso now)) "work")])%list.
    rewrite Ha, Hw, Hl, <- !app_assoc. simpl.
    repeat split; auto.
    + rewrite filter_app, NoErr. simpl. lia.
    + rewrite filter_app, NoErr. simpl. intros H; now elim H.
  - exists evs, saved, ([fetching] ++ lines)%list.
    rewrite Ha, Hw, Hl, <- !app_assoc. simpl.
    repeat split; auto.
    + rewrite NoErr. simpl. lia.
    + rewrite NoErr. intros H; now elim H.
Qed.

(** ** The format of the timestamps *)

Lemma digit_val_digit_char (d : Z) : digit_val (digit_char d) = Some (d mod 10).
Proof.
  pose proof (Z.mod_pos_bound d 10 ltac:(lia)) as B.
  unfold digit_val, digit_char. rewrite nat_ascii_embedding by lia.
  replace ((48 <=? 48 + Z.to_nat (d mod 10))%nat) with true
    by (symmetry; apply Nat.leb_le; lia).
  replace ((48 + Z.to_nat (d mod 10) <=? 57)%nat) with true
    by (symmetry; apply Nat.leb_le; lia).
  cbn [andb]. f_equal. lia.
Qed.

Lemma read_digits_digit (d : Z) (rest : string) :
  read_digits (String (digit_char d) rest)
  = (d mod 10 :: fst (read_digits rest), snd (read_digits rest)).
Proof.
  cbn [read_digits]. rewrite digit_val_digit_char.
  destruct (read_digits rest). reflexivity.
Qed.

Lemma read_digits_stop (sep : ascii) (rest : string) :
  digit_val sep = None ->
  read_digits (String sep rest) = ([], String sep rest).
Proof. intros H. cbn [read_digits]. now rewrite H. Qed.

Lemma literal_same (c : ascii) (rest : string) :
  literal c (String c rest) = Some rest.
Proof. unfold literal. now rewrite Ascii.eqb_refl. Qed.

Lemma directive_Y_digits (a b c d : Z) (sep : ascii) (rest : string) :
  digit_val sep = None ->
  directive_Y (String (digit_char a) (String (digit_char b)
                 (String (digit_char c) (String (digit_char d)
                    (String sep rest)))))
  = Some (((a mod 10 * 10 + b mod 10) * 10 + c mod 10) * 10 + d mod 10,
          String sep rest).
Proof.
  intros H. unfold directive_Y.
  rewrite !read_digits_digit, (read_digits_stop sep rest H).
  cbn [fst snd]. unfold number. cbn [fold_left]. reflexivity.
Qed.

Lemma directive_digits (lo1 lo hi a b : Z) (sep : ascii) (rest : string) :
  digit_val sep = None ->
  directive lo1 lo hi (String (digit_char a) (String (digit_char b)
                                                (String sep rest)))
  = if (lo <=? a mod 10 * 10 + b mod 10) && (a mod 10 * 10 + b mod 10 <=? hi)
    then Some (a mod 10 * 10 + b mod 10, String sep rest) else None.
Proof.
  intros H. unfold directive.
  rewrite !read_digits_digit, (read_digits_stop sep rest H).
  cbn [fst snd]. unfold number. cbn [fold_left]. reflexivity.
Qed.

Lemma digit_char_cases (d : Z) :
  digit_char d = "0"%char \/ digit_char d = "1"%char \/ digit_char d = "2"%char
  \/ digit_char d = "3"%char \/ digit_char d = "4"%char \/ digit_char d = "5"%char
  \/ digit_char d = "6"%char \/ digit_char d = "7"%char \/ digit_char d = "8"%char
  \/ digit_char d = "9"%char.
Proof.
  pose proof (Z.mod_pos_bound d 10 ltac:(lia)) as B. unfold digit_char.
  assert (d mod 10 = 0 \/ d mod 10 = 1 \/ d mod 10 = 2 \/ d mod 10 = 3
          \/ d mod 10 = 4 \/ d mod 10 = 5 \/ d mod 10 = 6 \/ d mod 10 = 7
          \/ d mod 10 = 8 \/ d mod 10 = 9) as C by lia.
  repeat (destruct C as [-> | C]); try rewrite C; cbn; tauto.
Qed.

Lemma directive_d_digit (a : Z) (rest : string) :
  directive_d (String (digit_char a) rest)
  = directive 1 1 31 (String (digit_char a) rest).
Proof.
  destruct (digit_char_cases a) as [-> | [-> | [-> | [-> | [-> | [-> | [-> |
    [-> | [-> | ->]]]]]]]]]; reflexivity.
Qed.

Lemma two_digits (n : Z) :
  0 <= n <= 99 -> (n / 10) mod 10 * 10 + n mod 10 = n.
Proof. intros H. Z.div_mod_to_equations. lia. Qed.

Lemma four_digits (n : Z) :
  0 <= n <= 9999 ->
  (((n / 100 / 10) mod 10 * 10 + (n / 100) mod 10) * 10
   + (n mod 100 / 10) mod 10) * 10 + (n mod 100) mod 10 = n.
Proof. intros H. Z.div_mod_to_equations. lia. Qed.

Lemma days_in_month_le_31 (y m : Z) :
  1 <= m <= 12 -> 28 <= days_in_month y m <= 31.
Proof.
  intros Hm. unfold days_in_month.
  destruct ((m =? 2) && is_leap y); [lia|].
  assert (m = 1 \/ m = 2 \/ m = 3 \/ m = 4 \/ m = 5 \/ m = 6 \/ m = 7 \/ m = 8
          \/ m = 9 \/ m = 10 \/ m = 11 \/ m = 12) as C by lia.
  repeat (destruct C as [-> | C]); try subst m; cbn; lia.
Qed.

Lemma in_range (lo hi v : Z) :
  lo <= v <= hi -> (lo <=? v) && (v <=? hi) = true.
Proof. intros H. apply andb_true_iff. split; apply Z.leb_le; lia. Qed.

(** What [strftime] prints with the format of line 85, [strptime] reads
    back with the same format on lines 67-68. *)
Lemma strptime_strftime_iso (dt : datetime) :
  valid_datetime dt = true -> 1000 <= year dt ->
  strptime (JStr (strftime_iso dt)) = Ok dt.
Proof.
  destruct dt as [y m d H M S]. unfold valid_datetime, MINYEAR, MAXYEAR.
  cbn [year month day hour minute second].
  rewrite !andb_true_iff, !Z.leb_le.
  intros (((((((((((Hy1 & Hy2) & Hm1) & Hm2) & Hd1) & Hd2) & HH1) & HH2)
               & HM1) & HM2) & HS1) & HS2) Hy.
  pose proof (days_in_month_le_31 y m ltac:(lia)) as D31.
  assert (V : valid_datetime (mkDatetime y m d H M S) = true).
  { unfold valid_datetime, MINYEAR, MAXYEAR.
    cbn [year month day hour minute second].
    rewrite !andb_true_iff, !Z.leb_le. repeat split; assumption. }
  unfold strptime, strftime_iso, match_format.
  cbn [year month day hour minute second pad4 pad2 append].
  rewrite directive_Y_digits by reflexivity.
  rewrite four_digits by lia. cbn [obind]. rewrite literal_same. cbn [obind].
  rewrite directive_digits by reflexivity.
  rewrite two_digits, in_range by lia. cbn [obind].
  rewrite literal_same. cbn [obind].
  rewrite directive_d_digit, directive_digits by reflexivity.
  rewrite two_digits, in_range by lia. cbn [obind].
  rewrite literal_same. cbn [obind].
  rewrite directive_digits by reflexivity.
  rewrite two_digits, in_range by lia. cbn [obind].
  rewrite literal_same. cbn [obind].
  rewrite directive_digits by reflexivity.
  rewrite two_digits, in_range by lia. cbn [obind].
  rewrite literal_same. cbn [obind].
  rewrite directive_digits by reflexivity.
  rewrite two_digits, in_range by lia. cbn [obind].
  rewrite literal_same. cbn [obind].
  rewrite V. reflexivity.
Qed.

Lemma day_of_month_bounds (r : Z) (b : bool) :
  0 <= r < 365 ->
  let m := Z.shiftr (r + 50) 5 in
  let preceding := DAYS_BEFORE_MONTH m + (if (2 <? m) && b then 1 else 0) in
  let md :=
    if r <? preceding then
      (m - 1,
       r - (preceding
            - (DAYS_IN_MONTH (m - 1) + (if (m - 1 =? 2) && b then 1 else 0))) + 1)
    else (m, r - preceding + 1) in
  1 <= snd md
       <= DAYS_IN_MONTH (fst md) + (if (fst md =? 2) && b then 1 else 0).
Proof.
  intros Hr. rewrite Z.shiftr_div_pow2 by lia. change (2 ^ 5) with 32.
  pose proof (Z.div_mod (r + 50) 32 ltac:(lia)) as D.
  pose proof (Z.mod_pos_bound (r + 50) 32 ltac:(lia)) as B.
  set (m := (r + 50) / 32) in *. clearbody m.
  set (x := (r + 50) mod 32) in *. clearbody x.
  cbv zeta.
  assert (m = 1 \/ m = 2 \/ m = 3 \/ m = 4 \/ m = 5 \/ m = 6 \/ m = 7 \/ m = 8
          \/ m = 9 \/ m = 10 \/ m = 11 \/ m = 12) as Hcases by lia.
  repeat (destruct Hcases as [-> | Hcases]); try subst m; destruct b;
    eval_tables;
    match goal with
    | |- context [Z.ltb ?a ?c] =>
        destruct (Z.ltb_spec a c); eval_tables; lia
    end.
Qed.

Lemma days_in_month_table (y m : Z) :
  days_in_month y m
  = DAYS_IN_MONTH m + (if (m =? 2) && is_leap y then 1 else 0).
Proof.
  unfold days_in_month.
  destruct (Z.eqb_spec m 2) as [->|N]; cbn [andb]; [|lia].
  destruct (is_leap y); reflexivity.
Qed.

(** The date of a day number from 1 to [MAXORDINAL] is a date of the
    calendar in the years 1 to 9999. *)
Lemma ord2ymd_valid (n : Z) :
  1 <= n <= MAXORDINAL ->
  1 <= fst (fst (ord2ymd n)) <= 9999
  /\ 1 <= snd (fst (ord2ymd n)) <= 12
  /\ 1 <= snd (ord2ymd n)
          <= days_in_month (fst (fst (ord2ymd n))) (snd (fst (ord2ymd n))).
Proof.
  unfold MAXORDINAL. intros Hn.
  unfold ord2ymd, DI400Y, DI100Y, DI4Y. cbv zeta.
  pose proof (Z.div_mod (n - 1) 146097 ltac:(lia)) as D400.
  pose proof (Z.mod_pos_bound (n - 1) 146097 ltac:(lia)) as B400.
  set (q400 := (n - 1) / 146097) in *. set (r400 := (n - 1) mod 146097) in *.
  pose proof (Z.div_mod r400 36524 ltac:(lia)) as D100.
  pose proof (Z.mod_pos_bound r400 36524 ltac:(lia)) as B100.
  set (q100 := r400 / 36524) in *. set (r100 := r400 mod 36524) in *.
  pose proof (Z.div_mod r100 1461 ltac:(lia)) as D4.
  pose proof (Z.mod_pos_bound r100 1461 ltac:(lia)) as B4.
  set (q4 := r100 / 1461) in *. set (r4 := r100 mod 1461) in *.
  pose proof (Z.div_mod r4 365 ltac:(lia)) as D1.
  pose proof (Z.mod_pos_bound r4 365 ltac:(lia)) as B1.
  set (q1 := r4 / 365) in *. set (r := r4 mod 365) in *.
  clearbody q400 r400 q100 r100 q4 r4 q1 r.
  assert (H400 : 0 <= q400 <= 24) by lia.
  assert (H100 : 0 <= q100 <= 4) by lia.
  assert (H4 : 0 <= q4 <= 24) by lia.
  assert (H1 : 0 <= q1 <= 4) by lia.
  destruct (Z.eqb_spec q1 4) as [E1|N1]; [|destruct (Z.eqb_spec q100 4) as [E100|N100]];
    cbn [orb fst snd].
  - rewrite days_in_month_table. cbn. lia.
  - rewrite days_in_month_table. cbn. lia.
  - set (leapyear := (q1 =? 3) && (negb (q4 =? 24) || (q100 =? 3))).
    pose proof (month_of_day r leapyear B1) as M. cbv zeta in M.
    pose proof (day_of_month_bounds r leapyear B1) as DB. cbv zeta in DB.
    set (md := if r <? _ then _ else _) in M, DB.
    assert (Hres :
      (if r <? DAYS_BEFORE_MONTH (Z.shiftr (r + 50) 5)
               + (if (2 <? Z.shiftr (r + 50) 5) && leapyear then 1 else 0)
       then
         (q400 * 400 + 1 + q100 * 100 + q4 * 4 + q1, Z.shiftr (r + 50) 5 - 1,
          r - (DAYS_BEFORE_MONTH (Z.shiftr (r + 50) 5)
               + (if (2 <? Z.shiftr (r + 50) 5) && leapyear then 1 else 0)
               - (DAYS_IN_MONTH (Z.shiftr (r + 50) 5 - 1)
                  + (if (Z.shiftr (r + 50) 5 - 1 =? 2) && leapyear
                     then 1 else 0))) + 1)
       else
         (q400 * 400 + 1 + q100 * 100 + q4 * 4 + q1, Z.shiftr (r + 50) 5,
          r - (DAYS_BEFORE_MONTH (Z.shiftr (r + 50) 5)
               + (if (2 <? Z.shiftr (r + 50) 5) && leapyear then 1 else 0)) + 1))
      = (q400 * 400 + 1 + q100 * 100 + q4 * 4 + q1, fst md, snd md)).
    { subst md. destruct (r <? _); reflexivity. }
    rewrite Hres. cbn [fst snd].
    rewrite days_in_month_table, year_leap by lia. fold leapyear.
    destruct M as [_ M]. repeat split; lia.
Qed.

(** A wall clock that [of_seconds] shows has fields a [datetime] accepts. *)
Lemma of_seconds_valid (s : Z) (dt : datetime) :
  of_seconds s = Ok dt -> valid_datetime dt = true.
Proof.
  unfold of_seconds. cbv zeta.
  destruct ((1 <=? s / 86400) && (s / 86400 <=? MAXORDINAL)) eqn:R;
    [|discriminate].
  apply andb_true_iff in R. rewrite !Z.leb_le in R.
  pose proof (ord2ymd_valid (s / 86400) R) as V.
  destruct (ord2ymd (s / 86400)) as [[y m] d]. cbn [fst snd] in V.
  intros [= <-]. unfold valid_datetime, MINYEAR, MAXYEAR.
  cbn [year month day hour minute second].
  pose proof (Z.mod_pos_bound s 86400 ltac:(lia)) as B.
  set (r := s mod 86400) in *. clearbody r.
  rewrite !andb_true_iff, !Z.leb_le.
  repeat split; try lia; Z.div_mod_to_equations; lia.
Qed.

(** X14: the end of the range that [main] asks the API for (line 85) is
    the wall clock of the host printed as a UTC timestamp: read back with
    the format of the writer it gives the fields of the host's clock, so it
    names the instant of the run moved by the offset of the host's zone. *)
Theorem request_end_is_host_wall_clock (E : Env) (w : World) (now : datetime) :
  host_now E (clock_reads w) = Ok now ->
  1000 <= year now ->
  main E w
  = match fetch_time_entries E START_DATE (strftime_iso now) (tick w) with
    | (Ok v, w1) => after_fetch E (strftime_iso now) v w1
    | (Raise e, w1) => (Raise e, w1)
    end
  /\ strptime (JStr (strftime_iso now)) = Ok now
  /\ seconds_of now
     = utc_now E (clock_reads w) + system_tz E (utc_now E (clock_reads w)).
Proof.
  intros Hnow Hy. split; [exact (main_run E w now Hnow)|]. split.
  - apply strptime_strftime_iso; [|exact Hy].
    unfold host_now in Hnow. exact (of_seconds_valid _ _ Hnow).
  - exact (host_now_seconds _ _ _ Hnow).
Qed.

Lemma rome_host_now :
  host_now rome_host_env (clock_reads empty_world)
  = Ok (mkDatetime 2024 3 1 10 0 0).
Proof. vm_compute. reflexivity. Qed.

Lemma request_end_is_host_wall_clock_witness :
  strptime (JStr (strftime_iso (mkDatetime 2024 3 1 10 0 0)))
  = Ok (mkDatetime 2024 3 1 10 0 0)
  /\ seconds_of (mkDatetime 2024 3 1 10 0 0)
     = utc_now rome_host_env (clock_reads empty_world)
       + system_tz rome_host_env (utc_now rome_host_env (clock_reads empty_world)).
Proof.
  assert (Hy : 1000 <= year (mkDatetime 2024 3 1 10 0 0)) by (cbn; lia).
  exact (proj2 (request_end_is_host_wall_clock rome_host_env empty_world
                  (mkDatetime 2024 3 1 10 0 0) rome_host_now Hy)).
Defined.
